(** * Voice search agent: the search route and the page component

    A shallow embedding of [src/app/api/search/route.ts] (the query gateway)
    and of the page component (the agent client), with the properties of
    the query-to-summary cycle proved over it. *)

From Stdlib Require Import List NArith ZArith String Ascii Bool Lia DecimalString.
Import ListNotations.

Set Implicit Arguments.
Set Warnings "-register-all".

(** ** JavaScript values the two files handle *)

Module Js.

(** A JavaScript string is a sequence of UTF-16 code units. *)
Definition jsstring := list N.

(** A string literal of the source (ASCII only). *)
Definition lit (s : string) : jsstring :=
  map N_of_ascii (list_ascii_of_string s).
Arguments lit s%_string.

(** [a === b] on strings. *)
Fixpoint str_eqb (a b : jsstring) : bool :=
  match a, b with
  | [], [] => true
  | c :: a', d :: b' => (c =? d)%N && str_eqb a' b'
  | _, _ => false
  end.

(** [!s] on a string: only the empty string is falsy. *)
Definition str_falsy (s : jsstring) : bool :=
  match s with [] => true | _ :: _ => false end.

(** WhiteSpace and LineTerminator code points of ECMAScript, the ones
    [String.prototype.trim] strips. *)
Definition is_white_space (c : N) : bool :=
  ((c =? 0x9) || (c =? 0xA) || (c =? 0xB) || (c =? 0xC) || (c =? 0xD)
   || (c =? 0x20) || (c =? 0xA0) || (c =? 0x1680)
   || ((0x2000 <=? c) && (c <=? 0x200A))
   || (c =? 0x2028) || (c =? 0x2029) || (c =? 0x202F) || (c =? 0x205F)
   || (c =? 0x3000) || (c =? 0xFEFF))%N.

Fixpoint trimStart (s : jsstring) : jsstring :=
  match s with
  | [] => []
  | c :: rest => if is_white_space c then trimStart rest else s
  end.

Definition trimEnd (s : jsstring) : jsstring := rev (trimStart (rev s)).

Definition trim (s : jsstring) : jsstring := trimEnd (trimStart s).

(** [Array.prototype.join] on an array of strings. *)
Fixpoint join (sep : jsstring) (parts : list jsstring) : jsstring :=
  match parts with
  | [] => []
  | [p] => p
  | p :: rest => p ++ sep ++ join sep rest
  end.

(** [Array.prototype.slice(start, end)]: a negative index counts from the
    end, both indices are clamped to the array. *)
Definition clamp_index (len i : Z) : Z :=
  if (i <? 0)%Z then Z.max (len + i) 0 else Z.min i len.

Definition slice (A : Type) (start stop : Z) (l : list A) : list A :=
  let len := Z.of_nat (List.length l) in
  let k := clamp_index len start in
  let final := clamp_index len stop in
  firstn (Z.to_nat (Z.max (final - k) 0)) (skipn (Z.to_nat k) l).

(** What a [throw] carries, as far as a [catch] of these files looks at
    it: an [Error] with its message, or some other value. *)
Inductive thrown : Type :=
| ErrorObject (message : jsstring)
| NotAnError.

(** A number of a parsed body, by the two things these files can observe
    of it: whether it is zero (the one falsy number [JSON.parse] gives) and
    the text [Number::toString] prints for it.  No handler computes with
    a number. *)
Record number : Type := {
  is_zero : bool;
  printed : jsstring
}.

(** The value [JSON.parse] produces (what [response.json()] resolves to
    when it is read at type [any]). *)
Inductive json : Type :=
| JNull
| JBool (b : bool)
| JNum (n : number)
| JStr (s : jsstring)
| JArr (elems : list json)
| JObj (members : list (jsstring * json)).

(** An own property of a parsed object: a later duplicate key wins. *)
Fixpoint get_member (name : jsstring) (members : list (jsstring * json))
  : option json :=
  match members with
  | [] => None
  | (k, v) :: rest =>
      match get_member name rest with
      | Some v' => Some v'
      | None => if str_eqb k name then Some v else None
      end
  end.

(** The TypeError of a property read on [null] (V8 words it so; nothing
    proved below depends on the wording). *)
Definition nullPropertyError (prop : jsstring) : thrown :=
  ErrorObject (lit "Cannot read properties of null (reading '"
               ++ prop ++ lit "')").

(** [payload.error] for a [payload] of type [any]: a TypeError on [null],
    the member of an object, [undefined] ([None]) on every other value. *)
Definition read_error (payload : json) : thrown + option json :=
  match payload with
  | JNull => inl (nullPropertyError (lit "error"))
  | JObj members => inr (get_member (lit "error") members)
  | _ => inr None
  end.

(** ToBoolean of a parsed value. *)
Definition truthy (v : json) : bool :=
  match v with
  | JNull => false
  | JBool b => b
  | JNum n => negb (is_zero n)
  | JStr s => negb (str_falsy s)
  | JArr _ | JObj _ => true
  end.

(** ToString of a parsed value.  An array joins its elements with commas
    and shows [null] as nothing; a plain object is [[object Object]],
    unless a member of its own hides [Object.prototype.toString]: a parsed
    member is never callable, and the conversion ends in a TypeError. *)
Fixpoint ToString (v : json) : thrown + jsstring :=
  match v with
  | JNull => inr (lit "null")
  | JBool true => inr (lit "true")
  | JBool false => inr (lit "false")
  | JNum n => inr (printed n)
  | JStr s => inr s
  | JArr elems =>
      match
        (fix each (l : list json) : thrown + list jsstring :=
           match l with
           | [] => inr []
           | e :: rest =>
               match (match e with JNull => inr [] | _ => ToString e end) with
               | inl t => inl t
               | inr part =>
                   match each rest with
                   | inl t => inl t
                   | inr parts => inr (part :: parts)
                   end
               end
           end) elems
      with
      | inl t => inl t
      | inr parts => inr (join (lit ",") parts)
      end
  | JObj members =>
      match get_member (lit "toString") members with
      | Some _ =>
          inl (ErrorObject (lit "Cannot convert object to primitive value"))
      | None => inr (lit "[object Object]")
      end
  end.

(** [new Error(message)]. *)
Definition new_Error (message : jsstring) : thrown := ErrorObject message.

Definition is_high_surrogate (c : N) : bool :=
  ((0xD800 <=? c) && (c <=? 0xDBFF))%N.

Definition is_low_surrogate (c : N) : bool :=
  ((0xDC00 <=? c) && (c <=? 0xDFFF))%N.

(** No surrogate code unit without its partner. *)
Fixpoint well_formed (s : jsstring) : bool :=
  match s with
  | [] => true
  | c :: rest =>
      if is_high_surrogate c then
        match rest with
        | d :: rest' => is_low_surrogate d && well_formed rest'
        | [] => false
        end
      else if is_low_surrogate c then false
      else well_formed rest
  end.

(** The result of [encodeURIComponent], kept as the string it encodes. *)
Inductive encoded : Type := Encoded (decoded : jsstring).

(** [encodeURIComponent]: a URIError on a lone surrogate. *)
Definition encodeURIComponent (s : jsstring) : thrown + encoded :=
  if well_formed s then inr (Encoded s)
  else inl (ErrorObject (lit "URI malformed")).

End Js.

(** ** The Fetch API as the two files use it *)

Module Fetch.
Import Js.

(** A response, with [json()] at the two types a handler reads it at: at
    [any] on the failure branch and cast to the declared payload type [T]
    on the success branch.  [inl] is a rejected promise. *)
Record Response (T : Type) : Type := {
  status : Z;
  json_any : thrown + json;
  json_as : thrown + T
}.

(** [response.ok]: the status is in the range 200 to 299. *)
Definition ok (T : Type) (r : Response T) : bool :=
  ((200 <=? status r) && (status r <=? 299))%Z.

End Fetch.

(** ** Code that may throw, and what it does on the way *)

Module Try.
Import Js.

Section Events.
Variable Event : Type.

(** Code of a [try] block: the events so far and a value or a throw. *)
Definition M (A : Type) : Type := (list Event * (thrown + A))%type.

Definition ret (A : Type) (a : A) : M A := ([], inr a).

Definition bind (A B : Type) (m : M A) (k : A -> M B) : M B :=
  match m with
  | (ev, inl e) => (ev, inl e)
  | (ev, inr a) => let (ev', r) := k a in (ev ++ ev', r)
  end.

Definition throw (A : Type) (e : thrown) : M A := ([], inl e).

Definition emit (ev : Event) : M unit := ([ev], inr tt).

(** [await p] for a promise that is settled by then. *)
Definition await (A : Type) (p : thrown + A) : M A := ([], p).

(** [try { ... } catch (error) { ... }] with a handler that returns. *)
Definition try_catch (A : Type) (block : M A)
    (handler : thrown -> list Event * A) : list Event * A :=
  match block with
  | (ev, inr a) => (ev, a)
  | (ev, inl e) => let (ev', a) := handler e in (ev ++ ev', a)
  end.
End Events.

Arguments ret {Event A} a.
Arguments bind {Event A B} m k.
Arguments throw {Event A} e.
Arguments emit {Event} ev.
Arguments await {Event A} p.
Arguments try_catch {Event A} block handler.

Notation "x <- m ;; k" := (bind m (fun x => k))
  (at level 61, m at next level, right associativity).
Notation "m ;;; k" := (bind m (fun _ => k))
  (at level 61, right associativity).

End Try.

(** ** The query gateway: [src/app/api/search/route.ts] *)

Module Route.
Import Js Try.

(** [process.env], read once when the module is loaded. *)
Record Env : Type := {
  GOOGLE_API_KEY : option jsstring;
  GOOGLE_CSE_ID : option jsstring
}.

Record SearchResult : Type := {
  title : jsstring;
  link : jsstring;
  snippet : jsstring;
  displayLink : option jsstring
}.

(** An element of [GoogleSearchResponse.items]. *)
Module Item.
Record t : Type := {
  title : jsstring;
  link : jsstring;
  snippet : jsstring;
  displayLink : option jsstring
}.
End Item.

Record GoogleSearchResponse : Type := {
  items : option (list Item.t)
}.

Definition highlightCount (results : list SearchResult) : Z :=
  Z.min (Z.of_nat (List.length results)) 3.

Definition highlights (results : list SearchResult) : list jsstring :=
  map (fun item => title item ++ lit ". " ++ snippet item)
      (slice 0 (highlightCount results) results).

Definition summarizeResults (query : jsstring) (results : list SearchResult)
  : jsstring :=
  if (List.length results =? 0)%nat then
    lit "I could not find any results for " ++ query ++ lit "."
  else
    lit "Here is what I found for " ++ query ++ lit ". "
      ++ join (lit " ") (highlights results).

(** The incoming request, as far as the handler reads it: the search
    parameters of its URL, in order. *)
Record Request : Type := {
  searchParams : list (jsstring * jsstring)
}.

(** [URLSearchParams.get]: the first value under the name, or [null]. *)
Fixpoint searchParams_get (name : jsstring)
    (params : list (jsstring * jsstring)) : option jsstring :=
  match params with
  | [] => None
  | (k, v) :: rest =>
      if str_eqb k name then Some v else searchParams_get name rest
  end.

(** [URLSearchParams.set]: the first pair under the name takes the value
    and the other ones go; a new pair is appended when there is none. *)
Fixpoint searchParams_set (name value : jsstring)
    (params : list (jsstring * jsstring)) : list (jsstring * jsstring) :=
  match params with
  | [] => [(name, value)]
  | (k, v) :: rest =>
      if str_eqb k name
      then (k, value) :: filter (fun kv => negb (str_eqb (fst kv) name)) rest
      else (k, v) :: searchParams_set name value rest
  end.

(** The outbound call: the URL (origin and path, then its search
    parameters) and the options given to [fetch]. *)
Record ProviderRequest : Type := {
  endpoint : jsstring;
  params : list (jsstring * jsstring);
  headers : list (jsstring * jsstring);
  cache : jsstring
}.

(** The provider and the network in between: what [fetch] settles to. *)
Definition Network : Type :=
  ProviderRequest -> thrown + Fetch.Response GoogleSearchResponse.

Inductive ResponseBody : Type :=
| ErrorBody (error : jsstring)
| ResultsBody (results : list SearchResult) (summary : jsstring).

Record HttpResponse : Type := {
  body : ResponseBody;
  status : Z
}.

(** The statuses that go with no body. *)
Definition null_body_status (s : Z) : bool :=
  ((s =? 101) || (s =? 103) || (s =? 204) || (s =? 205) || (s =? 304))%Z.

(** [NextResponse.json(body, { status })] builds the response through
    [Response.json], which refuses a status outside 200 to 599 with a
    RangeError and a body under a null body status with a TypeError (the
    messages are worded as Node words them). *)
Definition NextResponse_json (b : ResponseBody) (s : Z)
  : thrown + HttpResponse :=
  if ((s <? 200) || (599 <? s))%Z then
    inl (ErrorObject (lit "init[" ++ [34%N] ++ lit "status" ++ [34%N]
                      ++ lit "] must be in the range of 200 to 599, inclusive."))
  else if null_body_status s then
    inl (ErrorObject (lit "Response constructor: Invalid response status code "
                      ++ lit (NilZero.string_of_int (Z.to_int s))))
  else inr {| body := b; status := s |}.

(** What the handler does besides answering. *)
Inductive Event : Type :=
| Fetched (req : ProviderRequest)
| ConsoleError (e : thrown).

Definition fetch (net : Network) (req : ProviderRequest)
  : M Event (Fetch.Response GoogleSearchResponse) :=
  ([Fetched req], net req).

(** The three answers with a fixed status, which [NextResponse.json]
    accepts. *)
Definition missing_query : HttpResponse :=
  {| body := ErrorBody (lit "Missing query"); status := 400 |}.

Definition not_configured : HttpResponse :=
  {| body := ErrorBody (lit "Search service is not configured. Please add GOOGLE_API_KEY and GOOGLE_CSE_ID to the environment.");
     status := 500 |}.

Definition request_failed : HttpResponse :=
  {| body := ErrorBody (lit "Search request failed"); status := 500 |}.

Definition searchUrl (key cx query : jsstring) : ProviderRequest :=
  {| endpoint := lit "https://www.googleapis.com/customsearch/v1";
     params := searchParams_set (lit "q") query
                 (searchParams_set (lit "cx") cx
                    (searchParams_set (lit "key") key []));
     headers := [(lit "Content-Type", lit "application/json")];
     cache := lit "no-store" |}.

Definition to_result (item : Item.t) : SearchResult :=
  {| title := Item.title item;
     link := Item.link item;
     snippet := Item.snippet item;
     displayLink := Item.displayLink item |}.

(** The body of the [try] block, from the [fetch] on. *)
Definition call_provider (net : Network) (key cx query : jsstring)
  : M Event HttpResponse :=
  response <- fetch net (searchUrl key cx query) ;;
  if negb (Fetch.ok response) then
    (* response.json().catch(() => ({})) *)
    let payload :=
      match Fetch.json_any response with
      | inl _ => JObj []
      | inr j => j
      end in
    error <- await (read_error payload) ;;
    let message :=
      match error with
      | Some (JStr s) => s
      | _ => lit "Google Search API error"
      end in
    await (NextResponse_json (ErrorBody message) (Fetch.status response))
  else
    payload <- await (Fetch.json_as response) ;;
    let results :=
      map to_result
          (match items payload with Some l => l | None => [] end) in
    await (NextResponse_json
             (ResultsBody results (summarizeResults query results)) 200).

Definition GET (env : Env) (net : Network) (request : Request)
  : list Event * HttpResponse :=
  match searchParams_get (lit "query") (searchParams request) with
  | None => ([], missing_query)
  | Some query =>
      if str_falsy query || str_falsy (trim query) then ([], missing_query)
      else
        match GOOGLE_API_KEY env, GOOGLE_CSE_ID env with
        | Some key, Some cx =>
            if str_falsy key || str_falsy cx then ([], not_configured)
            else
              try_catch (call_provider net key cx query)
                (fun error => ([ConsoleError error], request_failed))
        | _, _ => ([], not_configured)
        end
  end.

(** *** Vocabulary of the statements about the route *)

(** The request carries [query], which is not blank. *)
Definition asks (request : Request) (query : jsstring) : Prop :=
  searchParams_get (lit "query") (searchParams request) = Some query
  /\ str_falsy (trim query) = false.

(** Both credentials are set, to [key] and [cx]. *)
Definition configured (env : Env) (key cx : jsstring) : Prop :=
  GOOGLE_API_KEY env = Some key /\ str_falsy key = false
  /\ GOOGLE_CSE_ID env = Some cx /\ str_falsy cx = false.

(** The provider answers the call for [query] with a success status and
    a body that parses to [payload]. *)
Definition answers (net : Network) (key cx query : jsstring)
    (payload : GoogleSearchResponse) : Prop :=
  exists response,
    net (searchUrl key cx query) = inr response
    /\ Fetch.ok response = true
    /\ Fetch.json_as response = inr payload.

(** The query parameter is not there, or blank once trimmed. *)
Definition blank (query : option jsstring) : bool :=
  match query with
  | None => true
  | Some q => str_falsy (trim q)
  end.

(** The message the route is said to forward from a failed provider
    answer: the [error] member of the body when that is a string, the
    fixed one otherwise, also when the body does not parse. *)
Definition spec_provider_message (parsed : thrown + json) : jsstring :=
  match parsed with
  | inr (JObj members) =>
      match get_member (lit "error") members with
      | Some (JStr s) => s
      | _ => lit "Google Search API error"
      end
  | _ => lit "Google Search API error"
  end.

(** The outbound calls among the events of a run. *)
Definition outbound (evs : list Event) : list ProviderRequest :=
  flat_map (fun ev => match ev with
                      | Fetched req => [req]
                      | ConsoleError _ => []
                      end) evs.

(** The summary in the words of the specification: the fixed prefix with
    the query, then the fragments [title. snippet] of the first
    [min 3 (length results)] results, a single space between them. *)
Definition spec_fragment (r : SearchResult) : jsstring :=
  title r ++ lit ". " ++ snippet r.

Fixpoint spec_spaced (fragments : list jsstring) : jsstring :=
  match fragments with
  | [] => []
  | f :: rest =>
      f ++ match rest with
           | [] => []
           | _ :: _ => lit " " ++ spec_spaced rest
           end
  end.

Definition spec_summary (query : jsstring) (results : list SearchResult)
  : jsstring :=
  lit "Here is what I found for " ++ query ++ lit ". "
    ++ spec_spaced
         (map spec_fragment
              (firstn (Nat.min 3 (List.length results)) results)).

End Route.

(** ** The agent client: the page component *)

Module Page.
Import Js Try.

Record SearchItem : Type := {
  title : jsstring;
  link : jsstring;
  snippet : jsstring;
  displayLink : option jsstring
}.

Inductive AgentStatus : Type := idle | listening | searching | responding.

(** The body of a successful answer of the route, as [handleSearch] casts
    it; a field that is not there is [None]. *)
Module Payload.
Record t : Type := {
  results : option (list SearchItem);
  summary : option jsstring
}.
End Payload.

(** The first alternative of a recognition result is all the page reads. *)
Module Alternative.
Record t : Type := { transcript : jsstring }.
End Alternative.

(** The [useState] cells of [Home]. *)
Record AgentState : Type := {
  query : jsstring;
  transcript : jsstring;
  results : list SearchItem;
  status : AgentStatus;
  error : option jsstring;
  speechSupported : bool
}.

Definition initial : AgentState :=
  {| query := []; transcript := []; results := []; status := idle;
     error := None; speechSupported := false |}.

(** A call of one of the setters; [updateStatus] is [setStatus] given a
    function of the previous value. *)
Inductive Update : Type :=
| setQuery (q : jsstring)
| setTranscript (t : jsstring)
| setResults (r : list SearchItem)
| setStatus (s : AgentStatus)
| updateStatus (f : AgentStatus -> AgentStatus)
| setError (e : option jsstring)
| setSpeechSupported (b : bool).

Definition apply_update (s : AgentState) (u : Update) : AgentState :=
  match u with
  | setQuery q =>
      {| query := q; transcript := transcript s; results := results s;
         status := status s; error := error s;
         speechSupported := speechSupported s |}
  | setTranscript t =>
      {| query := query s; transcript := t; results := results s;
         status := status s; error := error s;
         speechSupported := speechSupported s |}
  | setResults r =>
      {| query := query s; transcript := transcript s; results := r;
         status := status s; error := error s;
         speechSupported := speechSupported s |}
  | setStatus st =>
      {| query := query s; transcript := transcript s; results := results s;
         status := st; error := error s;
         speechSupported := speechSupported s |}
  | updateStatus f =>
      {| query := query s; transcript := transcript s; results := results s;
         status := f (status s); error := error s;
         speechSupported := speechSupported s |}
  | setError e =>
      {| query := query s; transcript := transcript s; results := results s;
         status := status s; error := e;
         speechSupported := speechSupported s |}
  | setSpeechSupported b =>
      {| query := query s; transcript := transcript s; results := results s;
         status := status s; error := error s; speechSupported := b |}
  end.

Record Utterance : Type := {
  text : jsstring;
  rate : Z;
  pitch : Z;
  lang : jsstring
}.

(** What a handler does, in order. *)
Inductive Event : Type :=
| SetState (u : Update)
| Fetched (query : encoded)
| ConsoleError (e : thrown)
| SynthesisCancel
| SynthesisSpeak (u : Utterance)
| SetTimeout (callback : list Update) (delay : Z)
| RecognitionStart
| RecognitionStop
| PreventDefault.

(** The globals of the browser the page looks for; [None] is the run
    where [window] is undefined. *)
Record Window : Type := {
  SpeechRecognition : bool;
  webkitSpeechRecognition : bool;
  speechSynthesis : bool
}.

Inductive Constructor : Type := Standard | Webkit.

Definition getSpeechRecognition (window : option Window)
  : option Constructor :=
  match window with
  | None => None
  | Some w =>
      if SpeechRecognition w then Some Standard
      else if webkitSpeechRecognition w then Some Webkit
      else None
  end.

Definition speak (window : option Window) (text : jsstring) : list Event :=
  match window with
  | None => []
  | Some w =>
      if negb (speechSynthesis w) then []
      else [SynthesisCancel;
            SynthesisSpeak {| text := text; rate := 1; pitch := 1;
                              lang := lit "en-US" |}]
  end.

(** The route behind [fetch("/api/search?query=...")], by the outcome the
    promise settles to; a promise that stays pending is in [Awaiting]. *)
Definition Gateway : Type :=
  encoded -> thrown + Fetch.Response Payload.t.

Definition fetch (net : Gateway) (q : encoded)
  : M Event (Fetch.Response Payload.t) :=
  ([Fetched q], net q).

(** The effect run on mount; [construct] is what [new Recognition()]
    does.  The second component tells whether [recognitionRef.current]
    is set. *)
Definition mount (window : option Window) (construct : thrown + unit)
  : list Event * bool :=
  match getSpeechRecognition window with
  | None => ([SetState (setSpeechSupported false)], false)
  | Some _ =>
      try_catch
        (_ <- await construct ;;
         emit (SetState (setSpeechSupported true)) ;;;
         ret true)
        (fun err =>
           ([ConsoleError err; SetState (setSpeechSupported false)], false))
  end.

(** [instance.onresult], given [event.results]. *)
Definition onresult (event_results : list (list Alternative.t))
  : list Event :=
  let finalResult :=
    trim (join (lit " ")
            (map (fun speechResult =>
                    match speechResult with
                    | [] => []
                    | first :: _ => Alternative.transcript first
                    end)
                 event_results)) in
  [SetState (setTranscript finalResult); SetState (setQuery finalResult)].

Definition onerror : list Event := [SetState (setStatus idle)].

Definition onend : list Event :=
  [SetState (updateStatus
               (fun prev => match prev with listening => idle | _ => prev end))].

(** [recognition] tells whether [recognitionRef.current] is set. *)
Definition stopListening (recognition : bool) : list Event :=
  (if recognition then [RecognitionStop] else [])
    ++ [SetState (setStatus idle)].

(** [start] is what [recognitionRef.current.start()] does. *)
Definition startListening (recognition : bool) (start : thrown + unit)
  : list Event :=
  if negb recognition then []
  else
    [SetState (setError None); SetState (setTranscript [])]
      ++ fst (try_catch
                (emit RecognitionStart ;;;
                 _ <- await start ;;
                 emit (SetState (setStatus listening)))
                (fun err =>
                   ([ConsoleError err;
                     SetState (setError (Some (lit "Voice input failed to start. Please try again.")));
                     SetState (setStatus idle)], tt))).

(** The [try] block of [handleSearch]. *)
Definition search_block (window : option Window) (net : Gateway)
    (input : jsstring) : M Event unit :=
  q <- await (encodeURIComponent (trim input)) ;;
  response <- fetch net q ;;
  if negb (Fetch.ok response) then
    (* response.json().catch(() => ({})) *)
    let payload :=
      match Fetch.json_any response with
      | inl _ => JObj []
      | inr j => j
      end in
    e <- await (read_error payload) ;;
    (* payload.error || "Search failed. Please try again." *)
    message <- await (match e with
                      | Some v =>
                          if truthy v then ToString v
                          else inr (lit "Search failed. Please try again.")
                      | None => inr (lit "Search failed. Please try again.")
                      end) ;;
    throw (new_Error message)
  else
    payload <- await (Fetch.json_as response) ;;
    emit (SetState (setResults
                      (match Payload.results payload with
                       | Some r => r
                       | None => []
                       end))) ;;;
    emit (SetState (setStatus responding)) ;;;
    (speak window
       (match Payload.summary payload with
        | Some s =>
            if str_falsy s then lit "Here are your search results." else s
        | None => lit "Here are your search results."
        end), inr tt) ;;;
    emit (SetTimeout [setStatus idle] 600).

Definition handleSearch (window : option Window) (net : Gateway)
    (input : jsstring) : list Event :=
  if str_falsy (trim input) then
    [SetState (setError (Some (lit "Please provide something to search for.")))]
  else
    [SetState (setStatus searching); SetState (setError None)]
      ++ fst (try_catch (search_block window net input)
                (fun err =>
                   ([ConsoleError err;
                     SetState (setError
                                 (Some (match err with
                                        | ErrorObject message => message
                                        | NotAnError =>
                                            lit "Unexpected error occurred."
                                        end)));
                     SetState (setStatus idle)], tt))).

Definition onSubmit (s : AgentState) (recognition : bool)
    (window : option Window) (net : Gateway) : list Event :=
  [PreventDefault] ++ stopListening recognition
    ++ handleSearch window net (query s).

Definition onChange (value : jsstring) : list Event :=
  [SetState (setQuery value)].

(** The state after an event, and after a run of them. *)
Definition step (s : AgentState) (ev : Event) : AgentState :=
  match ev with
  | SetState u => apply_update s u
  | _ => s
  end.

Definition run (s : AgentState) (evs : list Event) : AgentState :=
  fold_left step evs s.

(** The states the component goes through, the first one left out. *)
Fixpoint trace (s : AgentState) (evs : list Event) : list AgentState :=
  match evs with
  | [] => []
  | ev :: rest => step s ev :: trace (step s ev) rest
  end.

(** The callbacks handed to [setTimeout], and the state once they ran. *)
Definition timers (evs : list Event) : list (list Update) :=
  flat_map (fun ev => match ev with
                      | SetTimeout callback _ => [callback]
                      | _ => []
                      end) evs.

Definition fire (s : AgentState) (callbacks : list (list Update))
  : AgentState :=
  fold_left (fun st callback => fold_left apply_update callback st)
            callbacks s.

(** The part of the rendering that shows the error and the findings. *)
Record Card : Type := {
  key : jsstring;
  href : jsstring;
  heading : jsstring;
  site : option jsstring;
  excerpt : jsstring
}.

Inductive Findings : Type :=
| ResultsList (cards : list Card)
| Placeholder (invitation : jsstring).

Record View : Type := {
  actionLabel : jsstring;
  errorBanner : option jsstring;
  resultsCount : option nat;
  findings : Findings
}.

Definition render (s : AgentState) : View :=
  let hasResults := (0 <? List.length (results s))%nat in
  {| actionLabel :=
       match status s with
       | listening => lit "Listening..."
       | searching => lit "Searching..."
       | responding => lit "Responding..."
       | idle => lit "Ask Agent"
       end;
     errorBanner :=
       match error s with
       | Some e => if str_falsy e then None else Some e
       | None => None
       end;
     resultsCount :=
       if hasResults then Some (List.length (results s)) else None;
     findings :=
       if hasResults then
         ResultsList
           (map (fun item =>
                   {| key := link item; href := link item;
                      heading := title item;
                      site := match displayLink item with
                              | Some d => if str_falsy d then None else Some d
                              | None => None
                              end;
                      excerpt := snippet item |})
                (results s))
       else
         Placeholder (lit "Ask me anything and I'll gather the most relevant answers for you.") |}.

(** *** Vocabulary of the statements about the page *)

(** The search fails: [fetch] rejects, or the route answers with a status
    that is not a success, or the body of a success does not parse. *)
Definition failed (outcome : thrown + Fetch.Response Payload.t) : bool :=
  match outcome with
  | inl _ => true
  | inr response =>
      if Fetch.ok response then
        match Fetch.json_as response with
        | inl _ => true
        | inr _ => false
        end
      else true
  end.

(** [input] is submitted and goes out as [q]. *)
Definition submitted (input : jsstring) (q : encoded) : Prop :=
  str_falsy (trim input) = false
  /\ encodeURIComponent (trim input) = inr q.

End Page.

(** ** Inputs the statements are tried on *)

Module Sample.
Import Js.

Definition env_set : Route.Env :=
  {| Route.GOOGLE_API_KEY := Some (lit "key-1");
     Route.GOOGLE_CSE_ID := Some (lit "engine-1") |}.

Definition env_unset : Route.Env :=
  {| Route.GOOGLE_API_KEY := None; Route.GOOGLE_CSE_ID := None |}.

Definition env_no_engine : Route.Env :=
  {| Route.GOOGLE_API_KEY := Some (lit "key-1");
     Route.GOOGLE_CSE_ID := None |}.

Definition request_for (query : jsstring) : Route.Request :=
  {| Route.searchParams := [(lit "query", query)] |}.

Definition request_bare : Route.Request := {| Route.searchParams := [] |}.

Definition item (n : string) (site : option jsstring) : Route.Item.t :=
  {| Route.Item.title := lit "Title " ++ lit n;
     Route.Item.link := lit "https://example.org/" ++ lit n;
     Route.Item.snippet := lit "Snippet " ++ lit n;
     Route.Item.displayLink := site |}.

Definition five_items : list Route.Item.t :=
  [item "1" (Some (lit "example.org")); item "2" None; item "3" None;
   item "4" (Some (lit "example.org")); item "5" None].

(** A provider that answers every call with the status and the body. *)
Definition provider (status : Z) (parsed : thrown + json)
    (typed : thrown + Route.GoogleSearchResponse) : Route.Network :=
  fun _ => inr {| Fetch.status := status; Fetch.json_any := parsed;
                  Fetch.json_as := typed |}.

Definition provider_items (items : option (list Route.Item.t))
  : Route.Network :=
  provider 200 (inr (JObj [])) (inr {| Route.items := items |}).

Definition provider_failing (status : Z) (parsed : thrown + json)
  : Route.Network :=
  provider status parsed (inl (ErrorObject (lit "not a search response"))).

Definition quota_exceeded : json :=
  JObj [(lit "error", JStr (lit "quota exceeded"))].

Definition unreachable : Route.Network :=
  fun _ => inl (ErrorObject (lit "fetch failed")).

Definition found : Page.SearchItem :=
  {| Page.title := lit "Title 1"; Page.link := lit "https://example.org/1";
     Page.snippet := lit "Snippet 1"; Page.displayLink := None |}.

(** The page after an earlier search, one result on display. *)
Definition showing : Page.AgentState :=
  {| Page.query := lit "weather"; Page.transcript := [];
     Page.results := [found]; Page.status := Page.idle;
     Page.error := None; Page.speechSupported := true |}.

(** The page while the microphone is on. *)
Definition hearing : Page.AgentState :=
  {| Page.query := lit "weath"; Page.transcript := lit "weath";
     Page.results := [found]; Page.status := Page.listening;
     Page.error := None; Page.speechSupported := true |}.

Definition browser : option Page.Window :=
  Some {| Page.SpeechRecognition := false;
          Page.webkitSpeechRecognition := true;
          Page.speechSynthesis := true |}.

(** A route that answers every call with the status and the body. *)
Definition gateway (status : Z) (parsed : thrown + json)
    (typed : thrown + Page.Payload.t) : Page.Gateway :=
  fun _ => inr {| Fetch.status := status; Fetch.json_any := parsed;
                  Fetch.json_as := typed |}.

Definition gateway_failing (status : Z) (parsed : thrown + json)
  : Page.Gateway :=
  gateway status parsed (inl (ErrorObject (lit "not a search answer"))).

Definition gateway_summary_only : Page.Gateway :=
  gateway 200 (inr (JObj [(lit "summary", JStr (lit "Nothing new."))]))
    (inr {| Page.Payload.results := None;
            Page.Payload.summary := Some (lit "Nothing new.") |}).

Definition offline : Page.Gateway :=
  fun _ => inl (ErrorObject (lit "Failed to fetch")).

End Sample.

(** ** The form of the page: the input, the two buttons and their notes *)

Module Controls.
Import Js Page.

(** The handler behind the voice button. *)
Inductive Handler : Type := StopListening | StartListening.

Record Form : Type := {
  inputValue : jsstring;
  inputDisabled : bool;
  submitDisabled : bool;
  voiceOnClick : Handler;
  voiceDisabled : bool;
  voiceLabel : jsstring;
  unsupportedNote : bool;
  capturedVoice : option jsstring
}.

Definition status_eqb (a b : AgentStatus) : bool :=
  match a, b with
  | idle, idle | listening, listening
  | searching, searching | responding, responding => true
  | _, _ => false
  end.

Definition render_form (s : AgentState) : Form :=
  {| inputValue := query s;
     inputDisabled := status_eqb (status s) searching;
     submitDisabled := status_eqb (status s) searching;
     voiceOnClick :=
       if status_eqb (status s) listening then StopListening
       else StartListening;
     voiceDisabled :=
       negb (speechSupported s) || status_eqb (status s) searching;
     voiceLabel :=
       if status_eqb (status s) listening then lit "Stop Listening"
       else lit "Talk to Agent";
     unsupportedNote := negb (speechSupported s);
     capturedVoice :=
       if negb (str_falsy (transcript s))
          && negb (status_eqb (status s) listening)
       then Some (transcript s) else None |}.

(** What a click on the voice button runs: nothing while the button is
    disabled, its handler otherwise. *)
Definition click_voice (s : AgentState) (recognition : bool)
    (start : thrown + unit) : list Event :=
  if voiceDisabled (render_form s) then []
  else
    match voiceOnClick (render_form s) with
    | StopListening => stopListening recognition
    | StartListening => startListening recognition start
    end.

(** The events of a handler that are not updates of the state. *)
Definition effects (evs : list Event) : list Event :=
  filter (fun ev => match ev with SetState _ => false | _ => true end) evs.

(** The calls of the route among the events. *)
Definition calls (evs : list Event) : list encoded :=
  flat_map (fun ev => match ev with Fetched q => [q] | _ => [] end) evs.

(** The utterances handed to the synthesis among the events. *)
Definition spoken (evs : list Event) : list Utterance :=
  flat_map (fun ev => match ev with SynthesisSpeak u => [u] | _ => [] end) evs.

(** The console lines of the route among its events. *)
Definition logged (evs : list Route.Event) : list thrown :=
  flat_map (fun ev => match ev with
                      | Route.ConsoleError e => [e]
                      | Route.Fetched _ => []
                      end) evs.

(** A string that does not begin with white space. *)
Definition starts_clean (s : jsstring) : Prop :=
  match s with
  | [] => True
  | c :: _ => is_white_space c = false
  end.

(** The steps of the [catch] of [handleSearch], and the text it reads
    aloud. *)
Definition caught (err : thrown) : list Event :=
  [ConsoleError err;
   SetState (setError (Some (match err with
                             | ErrorObject message => message
                             | NotAnError => lit "Unexpected error occurred."
                             end)));
   SetState (setStatus idle)].

Definition narration (payload : Payload.t) : jsstring :=
  match Payload.summary payload with
  | Some s => if str_falsy s then lit "Here are your search results." else s
  | None => lit "Here are your search results."
  end.

(** The message the [catch] of [handleSearch] takes from what was thrown. *)
Definition caught_text (err : thrown) : jsstring :=
  match err with
  | ErrorObject message => message
  | NotAnError => lit "Unexpected error occurred."
  end.

(** The message a failed search ends with, read off the outcome of the
    call: the message of a rejection; for an answer that is not a success,
    the [error] member of its body when that is truthy (as a string, or
    the message of the TypeError of its conversion) and the fixed sentence
    when the body does not parse or has no truthy [error]; for a success
    whose body does not parse, the message of that rejection. *)
Definition spec_failure_text (outcome : thrown + Fetch.Response Payload.t)
  : jsstring :=
  match outcome with
  | inl err => caught_text err
  | inr response =>
      if Fetch.ok response then
        match Fetch.json_as response with
        | inl err => caught_text err
        | inr _ => []
        end
      else
        match Fetch.json_any response with
        | inl _ => lit "Search failed. Please try again."
        | inr JNull => caught_text (nullPropertyError (lit "error"))
        | inr (JObj members) =>
            match get_member (lit "error") members with
            | Some v =>
                if truthy v then
                  match ToString v with
                  | inl err => caught_text err
                  | inr message => message
                  end
                else lit "Search failed. Please try again."
            | None => lit "Search failed. Please try again."
            end
        | inr _ => lit "Search failed. Please try again."
        end
  end.

(** The failures whose message is the route's own sentence or the fixed
    one: an answer that is not a success, with a body that does not parse,
    that is not an object (and not [null]), or that is an object whose
    [error] is absent, falsy or a string. *)
Definition readable_failure (outcome : thrown + Fetch.Response Payload.t)
  : bool :=
  match outcome with
  | inl _ => false
  | inr response =>
      negb (Fetch.ok response)
      && match Fetch.json_any response with
         | inl _ => true
         | inr JNull => false
         | inr (JObj members) =>
             match get_member (lit "error") members with
             | Some (JStr _) => true
             | Some v => negb (truthy v)
             | None => true
             end
         | inr _ => true
         end
  end.

(** The three ways a search goes, and the refusal of a blank input. *)
Inductive SearchRun (window : option Window) (net : Gateway)
    (input : jsstring) : list Event -> Prop :=
| RunBlank :
    str_falsy (trim input) = true ->
    SearchRun window net input
      [SetState (setError (Some (lit "Please provide something to search for.")))]
| RunMalformed err :
    str_falsy (trim input) = false ->
    encodeURIComponent (trim input) = inl err ->
    SearchRun window net input
      ([SetState (setStatus searching); SetState (setError None)]
         ++ caught err)
| RunFailed q err :
    submitted input q -> failed (net q) = true ->
    SearchRun window net input
      ([SetState (setStatus searching); SetState (setError None); Fetched q]
         ++ caught err)
| RunAnswered q response payload :
    submitted input q -> net q = inr response ->
    Fetch.ok response = true -> Fetch.json_as response = inr payload ->
    SearchRun window net input
      ([SetState (setStatus searching); SetState (setError None); Fetched q;
        SetState (setResults (match Payload.results payload with
                              | Some r => r
                              | None => []
                              end));
        SetState (setStatus responding)]
         ++ speak window (narration payload)
         ++ [SetTimeout [setStatus idle] 600]).

End Controls.

(** ** A request that may never settle *)

Module Awaiting.
Import Js Page Controls.

(** What the promise of [fetch] comes to: an outcome, or nothing yet. *)
Inductive settling (A : Type) : Type :=
| Settled (outcome : thrown + A)
| Pending.
Arguments Pending {A}.

(** The route behind a network that may keep the page waiting. *)
Definition SlowGateway : Type :=
  encoded -> settling (Fetch.Response Payload.t).

(** [handleSearch] over such a network.  Once the promise has settled the
    handler runs as it does against a route with that outcome; while it is
    pending the handler has run up to its [await]: the guard on a blank
    input, the two updates, the encoding (whose URIError the [catch]
    takes) and the call. *)
Definition handleSearch_awaiting (window : option Window)
    (net : SlowGateway) (input : jsstring) : list Event :=
  match net (Encoded (trim input)) with
  | Settled outcome => handleSearch window (fun _ => outcome) input
  | Pending =>
      if str_falsy (trim input) then
        [SetState (setError (Some (lit "Please provide something to search for.")))]
      else
        [SetState (setStatus searching); SetState (setError None)]
          ++ match encodeURIComponent (trim input) with
             | inl err => caught err
             | inr q => [Fetched q]
             end
  end.

Definition onSubmit_awaiting (s : AgentState) (recognition : bool)
    (window : option Window) (net : SlowGateway) : list Event :=
  [PreventDefault] ++ stopListening recognition
    ++ handleSearch_awaiting window net (query s).

End Awaiting.

(** ** More inputs the statements are tried on *)

Module Trial.
Import Js.

Definition env_empty_key : Route.Env :=
  {| Route.GOOGLE_API_KEY := Some []; Route.GOOGLE_CSE_ID := Some (lit "engine-1") |}.

Definition provider_unparseable : Route.Network :=
  Sample.provider 200 (inl (ErrorObject (lit "Unexpected token")))
    (inl (ErrorObject (lit "Unexpected token"))).

Definition no_browser_speech : option Page.Window :=
  Some {| Page.SpeechRecognition := false;
          Page.webkitSpeechRecognition := false;
          Page.speechSynthesis := false |}.

Definition gateway_two_results : Page.Gateway :=
  Sample.gateway 200 (inr (JObj []))
    (inr {| Page.Payload.results := Some [Sample.found; Sample.found];
            Page.Payload.summary := Some (lit "Two findings.") |}).


Definition silent : Awaiting.SlowGateway := fun _ => Awaiting.Pending.

Definition gateway_quota : Page.Gateway :=
  Sample.gateway_failing 403 (inr Sample.quota_exceeded).

(** The page with a search in flight. *)
Definition busy : Page.AgentState :=
  {| Page.query := lit "weather"; Page.transcript := lit "weather";
     Page.results := [Sample.found]; Page.status := Page.searching;
     Page.error := None; Page.speechSupported := true |}.

Definition heard : list (list Page.Alternative.t) :=
  [[{| Page.Alternative.transcript := lit " what is" |}];
   [{| Page.Alternative.transcript := lit "the weather " |};
    {| Page.Alternative.transcript := lit "whether" |}]].

Definition three_results : list Route.SearchResult :=
  map Route.to_result (firstn 3 Sample.five_items).

End Trial.

(** * The route: what it answers *)

Section RouteFacts.
Import Js Try Route.

Lemma trim_empty : trim [] = [].
Proof. reflexivity. Qed.

Lemma not_blank_not_empty (q : jsstring) :
  str_falsy (trim q) = false -> str_falsy q = false.
Proof. destruct q; [rewrite trim_empty; trivial | reflexivity]. Qed.

(** [slice(0, Math.min(length, n))] is the prefix of [min n length]
    elements. *)
Lemma slice_prefix (A : Type) (l : list A) (n : nat) :
  slice 0 (Z.min (Z.of_nat (List.length l)) (Z.of_nat n)) l
  = firstn (Nat.min n (List.length l)) l.
Proof.
  unfold slice, clamp_index.
  set (len := Z.of_nat (List.length l)).
  assert (Hlen : (0 <= len)%Z) by (subst len; lia).
  replace (0 <? 0)%Z with false by reflexivity.
  destruct (Z.ltb_spec (Z.min len (Z.of_nat n)) 0) as [Hneg | _]; [lia |].
  replace (Z.min 0 len) with 0%Z by lia.
  change (Z.to_nat 0) with 0%nat. cbn [skipn].
  f_equal. subst len. lia.
Qed.

Lemma join_spaced (fragments : list jsstring) :
  join (lit " ") fragments = spec_spaced fragments.
Proof.
  induction fragments as [| f rest IH]; [reflexivity |].
  destruct rest as [| g rest'].
  - cbn. now rewrite app_nil_r.
  - change (join (lit " ") (f :: g :: rest'))
      with (f ++ lit " " ++ join (lit " ") (g :: rest')).
    now rewrite IH.
Qed.

Lemma highlights_prefix (results : list SearchResult) :
  highlights results
  = map spec_fragment (firstn (Nat.min 3 (List.length results)) results).
Proof.
  unfold highlights, highlightCount.
  change 3%Z with (Z.of_nat 3). now rewrite slice_prefix.
Qed.

Lemma highlights_count (results : list SearchResult) :
  List.length (highlights results) = Nat.min 3 (List.length results).
Proof. rewrite highlights_prefix, length_map, length_firstn. lia. Qed.

Lemma summarizeResults_some (query : jsstring) (results : list SearchResult) :
  results <> [] -> summarizeResults query results = spec_summary query results.
Proof.
  intros Hne. unfold summarizeResults, spec_summary.
  destruct results as [| r rest]; [contradiction |].
  cbn [List.length Nat.eqb].
  now rewrite join_spaced, highlights_prefix.
Qed.

Lemma summarizeResults_none (query : jsstring) :
  summarizeResults query []
  = lit "I could not find any results for " ++ query ++ lit ".".
Proof. reflexivity. Qed.

(** With a query and both credentials the handler reaches the provider. *)
Lemma GET_calls_provider env net request query key cx :
  asks request query -> configured env key cx ->
  GET env net request
  = try_catch (call_provider net key cx query)
      (fun error => ([ConsoleError error], request_failed)).
Proof.
  intros [Hq Hb] (Hk & Hk' & Hc & Hc').
  unfold GET. rewrite Hq, (not_blank_not_empty _ Hb), Hb, Hk, Hc, Hk', Hc'.
  reflexivity.
Qed.

(** A success of the provider is answered with the mapped items and the
    summary of them, after the one call. *)
Lemma GET_success env net request query key cx payload :
  asks request query -> configured env key cx ->
  answers net key cx query payload ->
  let results :=
    map to_result (match items payload with Some l => l | None => [] end) in
  GET env net request
  = ([Fetched (searchUrl key cx query)],
     {| body := ResultsBody results (summarizeResults query results);
        status := 200 |}).
Proof.
  intros Ha Hc (response & Hnet & Hok & Hjson) results.
  rewrite (GET_calls_provider net Ha Hc).
  unfold call_provider, fetch, bind, await, try_catch.
  rewrite Hnet, Hok. cbn [negb]. rewrite Hjson.
  reflexivity.
Qed.

(** Whatever the provider does, a query with both credentials set leads
    to exactly one outbound call, the one for that query. *)
Lemma GET_one_call env net request query key cx :
  asks request query -> configured env key cx ->
  outbound (fst (GET env net request)) = [searchUrl key cx query].
Proof.
  intros Ha Hc. rewrite (GET_calls_provider net Ha Hc).
  unfold call_provider, fetch, bind, await, try_catch.
  destruct (net (searchUrl key cx query)) as [t | response]; [reflexivity |].
  destruct (negb (Fetch.ok response)).
  - destruct (read_error _) as [t | e]; [reflexivity |].
    destruct (NextResponse_json _ _); reflexivity.
  - destruct (Fetch.json_as response) as [t | payload]; reflexivity.
Qed.

Lemma summarizeResults_not_empty (query : jsstring)
    (results : list SearchResult) :
  summarizeResults query results <> [].
Proof.
  unfold summarizeResults.
  destruct (List.length results =? 0)%nat; discriminate.
Qed.

Lemma NextResponse_json_accepts (b : ResponseBody) (s : Z) :
  (200 <= s <= 599)%Z -> null_body_status s = false ->
  NextResponse_json b s = inr {| body := b; status := s |}.
Proof.
  intros Hs Hn. unfold NextResponse_json. rewrite Hn.
  destruct (Z.ltb_spec s 200); [lia |].
  destruct (Z.ltb_spec 599 s); [lia | reflexivity].
Qed.

Lemma NextResponse_json_status (b : ResponseBody) (s : Z) r :
  NextResponse_json b s = inr r -> body r = b /\ status r = s.
Proof.
  unfold NextResponse_json.
  destruct (_ || _); [discriminate |].
  destruct (null_body_status s); [discriminate |].
  intros [= <-]. split; reflexivity.
Qed.

(** A body with results only comes out of the success branch, with the
    summary [summarizeResults] makes for some query. *)
Lemma GET_results_summarized env net request results summary :
  body (snd (GET env net request)) = ResultsBody results summary ->
  exists query, summary = summarizeResults query results.
Proof.
  unfold GET.
  destruct (searchParams_get _ _) as [query |]; [| discriminate].
  destruct (_ || _); [discriminate |].
  destruct (GOOGLE_API_KEY env) as [key |]; [| discriminate].
  destruct (GOOGLE_CSE_ID env) as [cx |]; [| discriminate].
  destruct (_ || _); [discriminate |].
  unfold call_provider, fetch, bind, await, try_catch.
  destruct (net _) as [t | response]; [discriminate |].
  destruct (negb (Fetch.ok response)).
  - destruct (read_error _) as [t | e]; [discriminate |].
    destruct (NextResponse_json _ _) as [t | r] eqn:Hr; [discriminate |].
    apply NextResponse_json_status in Hr as [Hb _].
    cbn. rewrite Hb. discriminate.
  - destruct (Fetch.json_as response) as [t | payload]; [discriminate |].
    cbn. intros [= <- <-]. now exists query.
Qed.

End RouteFacts.

(** * The route: the properties of the specification *)

Section RouteProperties.
Import Js Try Route Sample.

(** C1: for a query that is not blank and a provider answer with at least
    one item, the route answers 200 with the summary made of the prefix
    [Here is what I found for {query}. ] and the fragments
    [{title}. {snippet}] of the first [min 3 n] results, in order, a
    single space between them; the highlights are [min 3 n] many. *)
Theorem summary_highlights env net request query key cx payload its :
  asks request query -> configured env key cx ->
  answers net key cx query payload ->
  items payload = Some its -> its <> [] ->
  let results := map to_result its in
  snd (GET env net request)
  = {| body := ResultsBody results (spec_summary query results);
       status := 200 |}
  /\ List.length (highlights results) = Nat.min 3 (List.length results).
Proof.
  intros Ha Hc Hn Hits Hne results.
  assert (Hres : results <> []).
  { subst results. destruct its; [contradiction | discriminate]. }
  split.
  - rewrite (GET_success Ha Hc Hn). rewrite Hits. fold results. cbn [snd].
    now rewrite (summarizeResults_some query Hres).
  - apply highlights_count.
Qed.

Lemma summary_highlights_weather :
  snd (GET env_set (provider_items (Some five_items))
         (request_for (lit "weather")))
  = {| body :=
         ResultsBody (map to_result five_items)
           (lit "Here is what I found for weather. Title 1. Snippet 1 Title 2. Snippet 2 Title 3. Snippet 3");
       status := 200 |}
  /\ List.length (highlights (map to_result five_items)) = 3%nat.
Proof.
  apply (@summary_highlights env_set (provider_items (Some five_items))
           (request_for (lit "weather")) (lit "weather")
           (lit "key-1") (lit "engine-1")
           {| items := Some five_items |} five_items).
  - split; reflexivity.
  - repeat split; reflexivity.
  - eexists. repeat split; reflexivity.
  - reflexivity.
  - discriminate.
Defined.

(** C2: for a query that is not blank and a provider answer without
    items, the summary is exactly [I could not find any results for
    {query}.]; and the summary of every answer that carries results is a
    string that is not empty. *)
Theorem summary_without_results env net request query key cx payload :
  asks request query -> configured env key cx ->
  answers net key cx query payload ->
  items payload = None \/ items payload = Some [] ->
  snd (GET env net request)
  = {| body :=
         ResultsBody []
           (lit "I could not find any results for " ++ query ++ lit ".");
       status := 200 |}
  /\ (forall env' net' request' results summary,
        body (snd (GET env' net' request')) = ResultsBody results summary ->
        summary <> []).
Proof.
  intros Ha Hc Hn Hits. split.
  - rewrite (GET_success Ha Hc Hn).
    destruct Hits as [-> | ->]; reflexivity.
  - intros env' net' request' results summary Hb.
    destruct (GET_results_summarized _ _ _ Hb) as [q ->].
    apply summarizeResults_not_empty.
Qed.

Lemma summary_without_results_news :
  snd (GET env_set (provider_items None) (request_for (lit "news")))
  = {| body :=
         ResultsBody [] (lit "I could not find any results for news.");
       status := 200 |}
  /\ (forall env' net' request' results summary,
        body (snd (GET env' net' request')) = ResultsBody results summary ->
        summary <> []).
Proof.
  apply (@summary_without_results env_set (provider_items None)
           (request_for (lit "news")) (lit "news")
           (lit "key-1") (lit "engine-1") {| items := None |}).
  - split; reflexivity.
  - repeat split; reflexivity.
  - eexists. repeat split; reflexivity.
  - left. reflexivity.
Defined.

(** C3, as the route has it: for a query that is not blank, a missing
    credential is answered 500 with the message that the search service
    is not configured, and nothing is sent to the provider. *)
Theorem missing_credentials_rejected env net request query :
  asks request query ->
  GOOGLE_API_KEY env = None \/ GOOGLE_CSE_ID env = None ->
  GET env net request
  = ([], {| body := ErrorBody (lit "Search service is not configured. Please add GOOGLE_API_KEY and GOOGLE_CSE_ID to the environment.");
            status := 500 |}).
Proof.
  intros [Hq Hb] Hmiss. unfold GET.
  rewrite Hq, (not_blank_not_empty _ Hb), Hb. cbn [orb].
  destruct Hmiss as [-> | ->]; [reflexivity |].
  destruct (GOOGLE_API_KEY env); reflexivity.
Qed.

Lemma missing_credentials_rejected_news :
  GET env_no_engine unreachable (request_for (lit "news"))
  = ([], {| body := ErrorBody (lit "Search service is not configured. Please add GOOGLE_API_KEY and GOOGLE_CSE_ID to the environment.");
            status := 500 |}).
Proof.
  apply (@missing_credentials_rejected env_no_engine unreachable
           (request_for (lit "news")) (lit "news")).
  - split; reflexivity.
  - right. reflexivity.
Defined.

(** C3 as it is written fails: with no credential at all, a request
    without a query is answered 400, not 500. *)
Lemma missing_credentials_blank_query :
  ~ (forall env net request,
       GOOGLE_API_KEY env = None \/ GOOGLE_CSE_ID env = None ->
       status (snd (GET env net request)) = 500%Z).
Proof.
  intros H.
  specialize (H env_unset unreachable request_bare (or_introl eq_refl)).
  discriminate H.
Qed.

(** C4: a request whose query is missing, or blank once trimmed, is
    answered 400 with [Missing query] and no outbound call, whatever the
    credentials are. *)
Theorem blank_query_rejected env net request :
  blank (searchParams_get (lit "query") (searchParams request)) = true ->
  GET env net request
  = ([], {| body := ErrorBody (lit "Missing query"); status := 400 |}).
Proof.
  unfold blank, GET.
  destruct (searchParams_get _ _) as [q |]; [| reflexivity].
  intros ->. now rewrite orb_true_r.
Qed.

Lemma blank_query_rejected_spaces :
  GET env_set (provider_items (Some five_items))
      (request_for (lit "   "))
  = ([], {| body := ErrorBody (lit "Missing query"); status := 400 |}).
Proof.
  apply (@blank_query_rejected env_set (provider_items (Some five_items))
           (request_for (lit "   "))).
  reflexivity.
Defined.

(** C5: the results of a successful answer are the provider's items, one
    for one and in the provider's order, each with the item's title, link,
    snippet and displayLink as they came; no item list gives no results. *)
Theorem items_mapped_verbatim env net request query key cx payload :
  asks request query -> configured env key cx ->
  answers net key cx query payload ->
  let its := match items payload with Some l => l | None => [] end in
  exists results summary,
    snd (GET env net request)
    = {| body := ResultsBody results summary; status := 200 |}
    /\ List.length results = List.length its
    /\ (forall i item,
          nth_error its i = Some item ->
          exists r,
            nth_error results i = Some r
            /\ title r = Item.title item /\ link r = Item.link item
            /\ snippet r = Item.snippet item
            /\ displayLink r = Item.displayLink item)
    /\ (items payload = None -> results = []).
Proof.
  intros Ha Hc Hn its.
  exists (map to_result its), (summarizeResults query (map to_result its)).
  split; [| split; [| split]].
  - now rewrite (GET_success Ha Hc Hn).
  - apply length_map.
  - intros i item Hi. exists (to_result item).
    split; [now apply map_nth_error | repeat split].
  - intros Hnone. subst its. now rewrite Hnone.
Qed.

Lemma items_mapped_verbatim_five :
  exists results summary,
    snd (GET env_set (provider_items (Some five_items))
           (request_for (lit "weather")))
    = {| body := ResultsBody results summary; status := 200 |}
    /\ List.length results = 5%nat
    /\ (forall i item,
          nth_error five_items i = Some item ->
          exists r,
            nth_error results i = Some r
            /\ title r = Item.title item /\ link r = Item.link item
            /\ snippet r = Item.snippet item
            /\ displayLink r = Item.displayLink item)
    /\ (Some five_items = None -> results = []).
Proof.
  apply (@items_mapped_verbatim env_set (provider_items (Some five_items))
           (request_for (lit "weather")) (lit "weather")
           (lit "key-1") (lit "engine-1") {| items := Some five_items |}).
  - split; reflexivity.
  - repeat split; reflexivity.
  - eexists. repeat split; reflexivity.
Defined.

(** A failed provider answer is forwarded as C6 says when its body is not
    [null] and [NextResponse.json] takes its status: the same status, and
    the body's [error] when that is a string, the fixed message otherwise
    and when the body does not parse. *)
Lemma provider_error_forwarded env net request query key cx response :
  asks request query -> configured env key cx ->
  net (searchUrl key cx query) = inr response ->
  Fetch.ok response = false ->
  Fetch.json_any response <> inr JNull ->
  (200 <= Fetch.status response <= 599)%Z ->
  Fetch.status response <> 304%Z ->
  GET env net request
  = ([Fetched (searchUrl key cx query)],
     {| body := ErrorBody (spec_provider_message (Fetch.json_any response));
        status := Fetch.status response |}).
Proof.
  intros Ha Hc Hnet Hok Hnull Hrange H304.
  rewrite (GET_calls_provider net Ha Hc).
  unfold call_provider, fetch, bind, await, try_catch.
  rewrite Hnet, Hok. cbn [negb].
  assert (Hacc : forall b,
             NextResponse_json b (Fetch.status response)
             = inr {| body := b; status := Fetch.status response |}).
  { intros b. apply NextResponse_json_accepts; [exact Hrange |].
    unfold Fetch.ok in Hok. unfold null_body_status.
    repeat match goal with
           | |- context [(?a =? ?b)%Z] => destruct (Z.eqb_spec a b)
           end; try reflexivity; try lia.
    all: exfalso; revert Hok;
      match goal with E : Fetch.status _ = _ |- _ => rewrite E end;
      discriminate. }
  destruct (Fetch.json_any response) as [t | [| b | n | s | elems | members]];
    cbn; try (rewrite Hacc; reflexivity).
  now contradiction Hnull.
Qed.

(** C6 fails on a failed provider answer whose body is the JSON value
    [null]: reading [payload.error] throws, the outer [catch] logs the
    TypeError, and the provider's 403 is answered 500 with
    [Search request failed]. *)
Theorem provider_error_null_body :
  GET env_set (provider_failing 403 (inr JNull)) (request_for (lit "news"))
  = ([Fetched (searchUrl (lit "key-1") (lit "engine-1") (lit "news"));
      ConsoleError (nullPropertyError (lit "error"))],
     {| body := ErrorBody (lit "Search request failed"); status := 500 |}).
Proof. reflexivity. Qed.

(** The same [catch] takes a status that [NextResponse.json] refuses. *)
Example provider_error_status_refused :
  snd (GET env_set (provider_failing 304 (inr quota_exceeded))
         (request_for (lit "news")))
  = {| body := ErrorBody (lit "Search request failed"); status := 500 |}
  /\ snd (GET env_set (provider_failing 999 (inr quota_exceeded))
            (request_for (lit "news")))
     = {| body := ErrorBody (lit "Search request failed"); status := 500 |}.
Proof. split; reflexivity. Qed.

Example provider_error_quota_exceeded :
  snd (GET env_set (provider_failing 403 (inr quota_exceeded))
         (request_for (lit "news")))
  = {| body := ErrorBody (lit "quota exceeded"); status := 403 |}.
Proof. reflexivity. Qed.

(** C8: a query that is not blank goes out as it came in, untrimmed: it
    is the [q] parameter of the one outbound call, and it stands as it is
    in the summary, right after the fixed words. *)
Theorem query_used_untrimmed env net request query key cx :
  asks request query -> configured env key cx ->
  (exists call,
     outbound (fst (GET env net request)) = [call]
     /\ searchParams_get (lit "q") (params call) = Some query)
  /\ (forall payload,
        answers net key cx query payload ->
        exists results summary,
          body (snd (GET env net request)) = ResultsBody results summary
          /\ (summary
               = lit "I could not find any results for " ++ query ++ lit "."
              \/ exists highlights,
                   summary
                   = lit "Here is what I found for " ++ query ++ lit ". "
                       ++ highlights)).
Proof.
  intros Ha Hc. split.
  - exists (searchUrl key cx query). split.
    + apply (GET_one_call net Ha Hc).
    + reflexivity.
  - intros payload Hn. rewrite (GET_success Ha Hc Hn). cbn [snd body].
    eexists. eexists. split; [reflexivity |].
    unfold summarizeResults.
    destruct (List.length _ =? 0)%nat; [left | right; eexists]; reflexivity.
Qed.

Lemma query_used_untrimmed_padded :
  (exists call,
     outbound (fst (GET env_set (provider_items None)
                      (request_for (lit "  weather "))))
     = [call]
     /\ searchParams_get (lit "q") (params call) = Some (lit "  weather "))
  /\ (forall payload,
        answers (provider_items None) (lit "key-1") (lit "engine-1")
          (lit "  weather ") payload ->
        exists results summary,
          body (snd (GET env_set (provider_items None)
                       (request_for (lit "  weather "))))
          = ResultsBody results summary
          /\ (summary
               = lit "I could not find any results for   weather ."
              \/ exists highlights,
                   summary
                   = lit "Here is what I found for   weather . "
                       ++ highlights)).
Proof.
  apply (@query_used_untrimmed env_set (provider_items None)
           (request_for (lit "  weather ")) (lit "  weather ")
           (lit "key-1") (lit "engine-1")).
  - split; reflexivity.
  - repeat split; reflexivity.
Defined.

End RouteProperties.

(** * The page: what a search and a recognition error leave behind *)

Section PageFacts.
Import Js Try Page.

(** The events of a failed search: the two updates before the [try], the
    call, and the three steps of the [catch]. *)
Lemma handleSearch_failure window net input q :
  submitted input q -> failed (net q) = true ->
  exists err,
    handleSearch window net input
    = [SetState (setStatus searching); SetState (setError None);
       Fetched q; ConsoleError err;
       SetState (setError (Some (match err with
                                 | ErrorObject message => message
                                 | NotAnError =>
                                     lit "Unexpected error occurred."
                                 end)));
       SetState (setStatus idle)].
Proof.
  intros [Hb Hq] Hf. unfold handleSearch. rewrite Hb.
  unfold search_block, fetch, bind, await, throw, try_catch.
  rewrite Hq. unfold failed in Hf.
  destruct (net q) as [t | response]; [now exists t |].
  destruct (Fetch.ok response); cbn [negb].
  - destruct (Fetch.json_as response) as [t | payload];
      [now exists t | discriminate].
  - destruct (read_error _) as [t | e]; [now exists t |].
    match goal with
    | |- context [match ?m with inl _ => _ | inr _ => _ end] =>
        destruct m as [t | message]
    end; [now exists t | now exists (new_Error message)].
Qed.

(** The events of a search that succeeds. *)
Lemma handleSearch_success window net input q response payload :
  submitted input q -> net q = inr response ->
  Fetch.ok response = true -> Fetch.json_as response = inr payload ->
  handleSearch window net input
  = [SetState (setStatus searching); SetState (setError None); Fetched q;
     SetState (setResults (match Payload.results payload with
                           | Some r => r
                           | None => []
                           end));
     SetState (setStatus responding)]
      ++ speak window
           (match Payload.summary payload with
            | Some s =>
                if str_falsy s then lit "Here are your search results."
                else s
            | None => lit "Here are your search results."
            end)
      ++ [SetTimeout [setStatus idle] 600].
Proof.
  intros [Hb Hq] Hnet Hok Hjson. unfold handleSearch. rewrite Hb.
  unfold search_block, fetch, bind, await, emit, try_catch.
  rewrite Hq, Hnet, Hok. cbn [negb]. rewrite Hjson.
  reflexivity.
Qed.

(** Reading aloud changes no state. *)
Lemma run_speak s window text : run s (speak window text) = s.
Proof.
  unfold speak. destruct window as [w |]; [| reflexivity].
  destruct (negb (speechSynthesis w)); reflexivity.
Qed.

Lemma run_app s evs evs' : run s (evs ++ evs') = run (run s evs) evs'.
Proof. apply fold_left_app. Qed.

(** A search that succeeds shows [responding] and is back to [idle] once
    the timer has fired, with the answer's results stored. *)
Example success_returns_to_idle :
  let evs :=
    handleSearch Sample.browser
      (Sample.gateway 200 (inr (JObj []))
         (inr {| Payload.results := Some [Sample.found; Sample.found];
                 Payload.summary := None |}))
      (lit "news") in
  map status (trace Sample.showing evs)
  = [searching; searching; searching; searching; responding; responding;
     responding; responding]
  /\ results (run Sample.showing evs) = [Sample.found; Sample.found]
  /\ status (fire (run Sample.showing evs) (timers evs)) = idle.
Proof. repeat split. Qed.

(** Submitting while the microphone is on stops the capture before the
    search goes out. *)
Example submit_stops_capture :
  firstn 6 (onSubmit Sample.hearing true Sample.browser Sample.offline)
  = [PreventDefault; RecognitionStop; SetState (setStatus idle);
     SetState (setStatus searching); SetState (setError None);
     Fetched (Encoded (lit "weath"))].
Proof. reflexivity. Qed.

(** A blank input is refused with a message and no call. *)
Example blank_input_refused :
  handleSearch Sample.browser Sample.offline (lit "  ")
  = [SetState (setError (Some (lit "Please provide something to search for.")))].
Proof. reflexivity. Qed.

(** The transcripts of a recognition event are joined and trimmed into
    both the transcript and the query. *)
Example onresult_joins_transcripts :
  run initial
    (onresult [[{| Alternative.transcript := lit " what is" |}];
               [];
               [{| Alternative.transcript := lit "the weather " |};
                {| Alternative.transcript := lit "whether" |}]])
  = {| query := lit "what is  the weather";
       transcript := lit "what is  the weather";
       results := []; status := idle; error := None;
       speechSupported := false |}.
Proof. reflexivity. Qed.

End PageFacts.

(** * The page: the properties of the specification *)

Section PageProperties.
Import Js Try Page Sample.

(** The events of a failed search, with the error the [catch] takes: its
    message is the one read off the outcome of the call. *)
Lemma handleSearch_failure_text window net input q :
  submitted input q -> failed (net q) = true ->
  exists err,
    Controls.caught_text err = Controls.spec_failure_text (net q)
    /\ handleSearch window net input
       = [SetState (setStatus searching); SetState (setError None);
          Fetched q; ConsoleError err;
          SetState (setError (Some (Controls.caught_text err)));
          SetState (setStatus idle)].
Proof.
  intros [Hb Hq] Hf. unfold handleSearch. rewrite Hb.
  unfold search_block, fetch, bind, await, throw, try_catch.
  rewrite Hq. unfold failed in Hf. unfold Controls.spec_failure_text.
  destruct (net q) as [t | response]; [now exists t |].
  destruct (Fetch.ok response); cbn [negb].
  - destruct (Fetch.json_as response) as [t | payload];
      [now exists t | discriminate].
  - destruct (Fetch.json_any response) as [t | [| b | n | str | elems | members]];
      cbn [read_error].
    + now exists (new_Error (lit "Search failed. Please try again.")).
    + now exists (nullPropertyError (lit "error")).
    + now exists (new_Error (lit "Search failed. Please try again.")).
    + now exists (new_Error (lit "Search failed. Please try again.")).
    + now exists (new_Error (lit "Search failed. Please try again.")).
    + now exists (new_Error (lit "Search failed. Please try again.")).
    + destruct (get_member (lit "error") members) as [v |];
        [| now exists (new_Error (lit "Search failed. Please try again."))].
      destruct (truthy v);
        [| now exists (new_Error (lit "Search failed. Please try again."))].
      destruct (ToString v) as [t | message];
        [now exists t | now exists (new_Error message)].
Qed.

(** The message of a readable failure is not empty. *)
Lemma readable_failure_text outcome :
  Controls.readable_failure outcome = true ->
  str_falsy (Controls.spec_failure_text outcome) = false.
Proof.
  unfold Controls.readable_failure, Controls.spec_failure_text.
  destruct outcome as [t | response]; [discriminate |].
  destruct (Fetch.ok response); [discriminate |]. cbn [negb andb].
  destruct (Fetch.json_any response) as [t | [| b | n | str | elems | members]];
    try reflexivity; try discriminate.
  destruct (get_member (lit "error") members) as [v |]; [| reflexivity].
  destruct v as [| b | n | str | elems | ms]; cbn [truthy].
  - reflexivity.
  - intros H. apply negb_true_iff in H. now rewrite H.
  - intros H. apply negb_true_iff in H. now rewrite H.
  - intros _. destruct (str_falsy str) eqn:Hs; [reflexivity | exact Hs].
  - discriminate.
  - discriminate.
Qed.

(** When a search fails (the route answers with a status that is not a
    success, or [fetch] or the parsing of the body fails), the page ends
    with the error set to the message read off the outcome, which is shown
    unless it is empty and is not empty for a readable failure; the status
    ends [idle] and is never [responding] on the way, the stored results
    stay what they were at every step, and no timer is left behind. *)
Theorem search_failure_keeps_results window net input q s :
  submitted input q -> failed (net q) = true ->
  let evs := handleSearch window net input in
  let message := Controls.spec_failure_text (net q) in
  error (run s evs) = Some message
  /\ errorBanner (render (run s evs))
     = (if str_falsy message then None else Some message)
  /\ (Controls.readable_failure (net q) = true -> str_falsy message = false)
  /\ status (run s evs) = idle
  /\ results (run s evs) = results s
  /\ Forall (fun st => status st <> responding /\ results st = results s)
       (trace s evs)
  /\ timers evs = [].
Proof.
  intros Hs Hf evs message.
  destruct (handleSearch_failure_text window net Hs Hf) as (err & Htext & Hevs).
  subst evs message. rewrite Hevs, <- Htext. cbn.
  split; [reflexivity |]. split; [reflexivity |].
  split; [intros Hr; rewrite Htext; now apply readable_failure_text |].
  repeat split.
  repeat constructor; cbn; discriminate.
Qed.

Lemma search_failure_keeps_results_showing :
  let net :=
    gateway_failing 500
      (inr (JObj [(lit "error", JStr (lit "Search request failed"))])) in
  let evs := handleSearch browser net (lit " news ") in
  let message := lit "Search request failed" in
  error (run showing evs) = Some message
  /\ errorBanner (render (run showing evs)) = Some message
  /\ (Controls.readable_failure (net (Encoded (lit "news"))) = true ->
      str_falsy message = false)
  /\ status (run showing evs) = idle
  /\ results (run showing evs) = [found]
  /\ Forall (fun st => status st <> responding /\ results st = [found])
       (trace showing evs)
  /\ timers evs = [].
Proof.
  apply (@search_failure_keeps_results browser
           (gateway_failing 500
              (inr (JObj [(lit "error", JStr (lit "Search request failed"))])))
           (lit " news ") (Encoded (lit "news")) showing).
  - split; reflexivity.
  - reflexivity.
Defined.


(** The message of a failed search is the route's own when its body has
    one, and the fixed one when the body does not parse or has none. *)
Lemma search_failure_message window net input q s response :
  submitted input q -> net q = inr response -> Fetch.ok response = false ->
  let shown := error (run s (handleSearch window net input)) in
  (forall members message,
      Fetch.json_any response = inr (JObj members) ->
      get_member (lit "error") members = Some (JStr message) ->
      str_falsy message = false -> shown = Some message)
  /\ (forall members,
        Fetch.json_any response = inr (JObj members) ->
        get_member (lit "error") members = None ->
        shown = Some (lit "Search failed. Please try again."))
  /\ (forall t,
        Fetch.json_any response = inl t ->
        shown = Some (lit "Search failed. Please try again.")).
Proof.
  intros [Hb Hq] Hnet Hok shown. subst shown.
  unfold handleSearch. rewrite Hb.
  unfold search_block, fetch, bind, await, throw, try_catch.
  rewrite Hq, Hnet, Hok. cbn [negb].
  split; [| split].
  - intros members message -> Hm Hne. unfold read_error. rewrite Hm.
    cbn [truthy ToString]. now rewrite Hne.
  - intros members -> Hm. unfold read_error. now rewrite Hm.
  - intros t ->. reflexivity.
Qed.

Example search_failure_offline :
  error (run showing (handleSearch browser offline (lit "news")))
  = Some (lit "Failed to fetch").
Proof. reflexivity. Qed.

(** C9: an error event of the recognition sets the status to [idle] and
    nothing else, in whatever state it comes, the listening one included:
    the error message and the rest of the state stay as they were; a
    [start] that throws, in contrast, ends with a message on display. *)
Theorem recognition_error_silent s :
  status (run s onerror) = idle
  /\ error (run s onerror) = error s
  /\ results (run s onerror) = results s
  /\ query (run s onerror) = query s
  /\ transcript (run s onerror) = transcript s
  /\ (forall err,
        let evs := startListening true (inl err) in
        status (run s evs) = idle
        /\ error (run s evs)
           = Some (lit "Voice input failed to start. Please try again.")).
Proof.
  repeat split.
Qed.

Example recognition_error_while_listening :
  status hearing = listening
  /\ run hearing onerror
     = {| query := lit "weath"; transcript := lit "weath";
          results := [found]; status := idle; error := None;
          speechSupported := true |}.
Proof. split; reflexivity. Qed.

(** C10: when the route answers 200 with a body that has no [results], the
    page stores the empty list, and the rendering shows the invitation
    and no count. *)
Theorem absent_results_coerced window net input q s response payload :
  submitted input q -> net q = inr response ->
  Fetch.status response = 200%Z ->
  Fetch.json_as response = inr payload ->
  Payload.results payload = None ->
  let evs := handleSearch window net input in
  In (SetState (setResults [])) evs
  /\ results (run s evs) = []
  /\ findings (render (run s evs))
     = Placeholder (lit "Ask me anything and I'll gather the most relevant answers for you.")
  /\ resultsCount (render (run s evs)) = None.
Proof.
  intros Hs Hnet Hst Hjson Hres evs.
  assert (Hok : Fetch.ok response = true).
  { unfold Fetch.ok. now rewrite Hst. }
  subst evs. rewrite (handleSearch_success window net Hs Hnet Hok Hjson).
  rewrite Hres.
  split; [cbn; tauto |].
  assert (Hrun : results (run s
                   ([SetState (setStatus searching); SetState (setError None);
                     Fetched q; SetState (setResults []);
                     SetState (setStatus responding)]
                      ++ speak window
                           (match Payload.summary payload with
                            | Some s0 =>
                                if str_falsy s0
                                then lit "Here are your search results."
                                else s0
                            | None => lit "Here are your search results."
                            end)
                      ++ [SetTimeout [setStatus idle] 600])) = []).
  { now rewrite !run_app, run_speak. }
  unfold render. rewrite Hrun. repeat split; assumption.
Qed.

Lemma absent_results_coerced_showing :
  let evs := handleSearch browser gateway_summary_only (lit "news") in
  In (SetState (setResults [])) evs
  /\ results (run showing evs) = []
  /\ findings (render (run showing evs))
     = Placeholder (lit "Ask me anything and I'll gather the most relevant answers for you.")
  /\ resultsCount (render (run showing evs)) = None.
Proof.
  apply (@absent_results_coerced browser gateway_summary_only (lit "news")
           (Encoded (lit "news")) showing
           {| Fetch.status := 200;
              Fetch.json_any :=
                inr (JObj [(lit "summary", JStr (lit "Nothing new."))]);
              Fetch.json_as :=
                inr {| Payload.results := None;
                       Payload.summary := Some (lit "Nothing new.") |} |}
           {| Payload.results := None;
              Payload.summary := Some (lit "Nothing new.") |}).
  - split; reflexivity.
  - reflexivity.
  - reflexivity.
  - reflexivity.
  - reflexivity.
Defined.

End PageProperties.

(** * The route: further properties of the handler *)

Section RouteCoverage.
Import Js Try Route Sample Trial Controls.

Lemma provider_error_forwarded_quota :
  GET env_set (provider_failing 403 (inr quota_exceeded))
      (request_for (lit "news"))
  = ([Fetched (searchUrl (lit "key-1") (lit "engine-1") (lit "news"))],
     {| body := ErrorBody (lit "quota exceeded"); status := 403 |}).
Proof.
  apply (@provider_error_forwarded env_set
           (provider_failing 403 (inr quota_exceeded))
           (request_for (lit "news")) (lit "news")
           (lit "key-1") (lit "engine-1")
           {| Fetch.status := 403; Fetch.json_any := inr quota_exceeded;
              Fetch.json_as := inl (ErrorObject (lit "not a search response")) |}).
  - split; reflexivity.
  - repeat split; reflexivity.
  - reflexivity.
  - reflexivity.
  - discriminate.
  - cbn. lia.
  - discriminate.
Defined.

(** When [fetch] rejects, or the body of a success does not parse, the
    handler has made its one call, logs what was thrown and answers 500
    with [Search request failed]. *)
Theorem transport_failure_reported env net request query key cx t :
  asks request query -> configured env key cx ->
  net (searchUrl key cx query) = inl t
  \/ (exists response,
        net (searchUrl key cx query) = inr response
        /\ Fetch.ok response = true /\ Fetch.json_as response = inl t) ->
  GET env net request
  = ([Fetched (searchUrl key cx query); ConsoleError t],
     {| body := ErrorBody (lit "Search request failed"); status := 500 |}).
Proof.
  intros Ha Hc Hfail. rewrite (GET_calls_provider net Ha Hc).
  unfold call_provider, fetch, bind, await, try_catch.
  destruct Hfail as [-> | (response & -> & Hok & Hjson)]; [reflexivity |].
  rewrite Hok. cbn [negb]. now rewrite Hjson.
Qed.

Lemma transport_failure_reported_unreachable :
  GET env_set unreachable (request_for (lit "news"))
  = ([Fetched (searchUrl (lit "key-1") (lit "engine-1") (lit "news"));
      ConsoleError (ErrorObject (lit "fetch failed"))],
     {| body := ErrorBody (lit "Search request failed"); status := 500 |}).
Proof.
  apply (@transport_failure_reported env_set unreachable
           (request_for (lit "news")) (lit "news")
           (lit "key-1") (lit "engine-1")).
  - split; reflexivity.
  - repeat split; reflexivity.
  - left. reflexivity.
Defined.

(** Every answer of the handler either carries results under status 200 or
    carries an error under a status from 300 to 599: the status tells a
    caller which of the two bodies it got. *)
Theorem answer_status_tells_body env net request :
  match body (snd (GET env net request)) with
  | ResultsBody _ _ => status (snd (GET env net request)) = 200%Z
  | ErrorBody _ => (300 <= status (snd (GET env net request)) <= 599)%Z
  end.
Proof.
  unfold GET.
  destruct (searchParams_get _ _) as [query |]; [| cbn; lia].
  destruct (_ || _); [cbn; lia |].
  destruct (GOOGLE_API_KEY env) as [key |]; [| cbn; lia].
  destruct (GOOGLE_CSE_ID env) as [cx |]; [| cbn; lia].
  destruct (_ || _); [cbn; lia |].
  unfold call_provider, fetch, bind, await, try_catch.
  destruct (net _) as [t | response]; [cbn; lia |].
  destruct (Fetch.ok response) eqn:Hok; cbn [negb].
  - destruct (Fetch.json_as response) as [t | payload]; cbn; [lia | reflexivity].
  - destruct (read_error _) as [t | e]; [cbn; lia |].
    destruct (NextResponse_json _ _) as [t | r] eqn:Hr; [cbn; lia |].
    pose proof Hr as Hr'. apply NextResponse_json_status in Hr' as [Hb Hs].
    cbn [snd app]. rewrite Hb, Hs.
    unfold NextResponse_json in Hr.
    destruct (Z.ltb_spec (Fetch.status response) 200); [discriminate |].
    destruct (Z.ltb_spec 599 (Fetch.status response)); [discriminate |].
    unfold Fetch.ok in Hok.
    destruct (Z.leb_spec 200 (Fetch.status response)); [| lia].
    destruct (Z.leb_spec (Fetch.status response) 299); [discriminate | lia].
Qed.

(** A call of the provider is only made for a query that is not blank with
    both credentials set; it is then the only call of the request, it goes
    to the custom search endpoint uncached, and its parameters are the key,
    the engine and the query, in this order. *)
Theorem outbound_call_justified env net request call :
  In call (outbound (fst (GET env net request))) ->
  exists query key cx,
    asks request query /\ configured env key cx
    /\ outbound (fst (GET env net request)) = [call]
    /\ endpoint call = lit "https://www.googleapis.com/customsearch/v1"
    /\ params call = [(lit "key", key); (lit "cx", cx); (lit "q", query)]
    /\ cache call = lit "no-store".
Proof.
  intros Hin.
  assert (Hcase : exists query key cx,
             asks request query /\ configured env key cx).
  { revert Hin. unfold GET, asks, configured.
    destruct (searchParams_get _ _) as [query |]; [| contradiction].
    destruct (str_falsy query) eqn:Hq; [contradiction |].
    destruct (str_falsy (trim query)) eqn:Hb; [contradiction |].
    cbn [orb].
    destruct (GOOGLE_API_KEY env) as [key |]; [| contradiction].
    destruct (GOOGLE_CSE_ID env) as [cx |]; [| contradiction].
    destruct (str_falsy key) eqn:Hk; [contradiction |].
    destruct (str_falsy cx) eqn:Hx; [contradiction |].
    intros _. exists query, key, cx. repeat split; assumption || reflexivity. }
  destruct Hcase as (query & key & cx & Ha & Hc).
  exists query, key, cx.
  pose proof (GET_one_call net Ha Hc) as Hone.
  rewrite Hone in Hin. destruct Hin as [<- | []].
  split; [exact Ha |]. split; [exact Hc |]. split; [exact Hone |].
  repeat split.
Qed.

Lemma outbound_call_justified_news :
  exists query key cx,
    asks (request_for (lit "news")) query /\ configured env_set key cx
    /\ outbound (fst (GET env_set unreachable (request_for (lit "news"))))
       = [searchUrl (lit "key-1") (lit "engine-1") (lit "news")]
    /\ endpoint (searchUrl (lit "key-1") (lit "engine-1") (lit "news"))
       = lit "https://www.googleapis.com/customsearch/v1"
    /\ params (searchUrl (lit "key-1") (lit "engine-1") (lit "news"))
       = [(lit "key", key); (lit "cx", cx); (lit "q", query)]
    /\ cache (searchUrl (lit "key-1") (lit "engine-1") (lit "news"))
       = lit "no-store".
Proof.
  apply (@outbound_call_justified env_set unreachable
           (request_for (lit "news"))
           (searchUrl (lit "key-1") (lit "engine-1") (lit "news"))).
  cbn. left. reflexivity.
Defined.

(** The handler writes to the console only when it answers 500 with
    [Search request failed], and then its events are exactly the one call
    followed by the one console line, in this order. *)
Theorem console_line_means_failure env net request e :
  In e (logged (fst (GET env net request))) ->
  exists call,
    GET env net request
    = ([Fetched call; ConsoleError e],
       {| body := ErrorBody (lit "Search request failed"); status := 500 |}).
Proof.
  unfold GET.
  destruct (searchParams_get _ _) as [query |]; [| contradiction].
  destruct (_ || _); [contradiction |].
  destruct (GOOGLE_API_KEY env) as [key |]; [| contradiction].
  destruct (GOOGLE_CSE_ID env) as [cx |]; [| contradiction].
  destruct (_ || _); [contradiction |].
  unfold call_provider, fetch, bind, await, try_catch.
  intros Hin. exists (searchUrl key cx query). revert Hin.
  destruct (net _) as [t | response].
  - cbn. now intros [<- | []].
  - destruct (negb (Fetch.ok response)).
    + destruct (read_error _) as [t | err].
      * cbn. now intros [<- | []].
      * destruct (NextResponse_json _ _) as [t | r].
        -- cbn. now intros [<- | []].
        -- cbn. contradiction.
    + destruct (Fetch.json_as response) as [t | payload].
      * cbn. now intros [<- | []].
      * cbn. contradiction.
Qed.

Lemma console_line_means_failure_unparseable :
  exists call,
    GET env_set provider_unparseable (request_for (lit "news"))
    = ([Fetched call; ConsoleError (ErrorObject (lit "Unexpected token"))],
       {| body := ErrorBody (lit "Search request failed"); status := 500 |}).
Proof.
  apply (@console_line_means_failure env_set provider_unparseable
           (request_for (lit "news")) (ErrorObject (lit "Unexpected token"))).
  cbn. left. reflexivity.
Defined.

(** The path through a status that [NextResponse.json] refuses logs after
    the call, too. *)
Example console_line_after_refused_status :
  fst (GET env_set (provider_failing 304 (inr quota_exceeded))
         (request_for (lit "news")))
  = [Fetched (searchUrl (lit "key-1") (lit "engine-1") (lit "news"));
     ConsoleError
       (ErrorObject
          (lit "Response constructor: Invalid response status code 304"))].
Proof. reflexivity. Qed.

(** A credential that is set to the empty string counts as missing. *)
Theorem empty_credential_rejected env net request query :
  asks request query ->
  GOOGLE_API_KEY env = Some [] \/ GOOGLE_CSE_ID env = Some [] ->
  GET env net request
  = ([], {| body := ErrorBody (lit "Search service is not configured. Please add GOOGLE_API_KEY and GOOGLE_CSE_ID to the environment.");
            status := 500 |}).
Proof.
  intros [Hq Hb] Hempty. unfold GET.
  rewrite Hq, (not_blank_not_empty _ Hb), Hb. cbn [orb].
  destruct Hempty as [-> | ->].
  - destruct (GOOGLE_CSE_ID env); reflexivity.
  - destruct (GOOGLE_API_KEY env) as [key |]; [| reflexivity].
    cbn [str_falsy]. now rewrite orb_true_r.
Qed.

Lemma empty_credential_rejected_news :
  GET env_empty_key (provider_items (Some five_items))
      (request_for (lit "news"))
  = ([], {| body := ErrorBody (lit "Search service is not configured. Please add GOOGLE_API_KEY and GOOGLE_CSE_ID to the environment.");
            status := 500 |}).
Proof.
  apply (@empty_credential_rejected env_empty_key
           (provider_items (Some five_items)) (request_for (lit "news"))
           (lit "news")).
  - split; reflexivity.
  - left. reflexivity.
Defined.

(** The summary of a list that is not empty names its first result right
    after the words with the query. *)
Theorem summary_names_first_result query r rest :
  exists tail,
    summarizeResults query (r :: rest)
    = lit "Here is what I found for " ++ query ++ lit ". "
        ++ title r ++ lit ". " ++ snippet r ++ tail.
Proof.
  rewrite summarizeResults_some by discriminate.
  unfold spec_summary. cbn [List.length Nat.min firstn map spec_spaced].
  unfold spec_fragment. eexists.
  rewrite <- !app_assoc. reflexivity.
Qed.

(** Results after the third do not change the summary. *)
Theorem summary_ignores_later_results query results :
  summarizeResults query results = summarizeResults query (firstn 3 results).
Proof.
  destruct results as [| r rest]; [reflexivity |].
  rewrite !summarizeResults_some by discriminate.
  unfold spec_summary.
  set (l := r :: rest).
  replace (firstn (Nat.min 3 (List.length (firstn 3 l))) (firstn 3 l))
    with (firstn (Nat.min 3 (List.length l)) l); [reflexivity |].
  rewrite length_firstn, firstn_firstn. f_equal. lia.
Qed.

End RouteCoverage.

(** * The page: further properties of the handlers *)

Section PageCoverage.
Import Js Try Page Sample Trial Controls.

(** ** Trimming *)

Lemma trimStart_clean s : starts_clean (trimStart s).
Proof.
  induction s as [| c rest IH]; [exact I |].
  cbn. destruct (is_white_space c) eqn:Hc; [exact IH | exact Hc].
Qed.

Lemma trimStart_fixed s : starts_clean s -> trimStart s = s.
Proof. destruct s as [| c rest]; [reflexivity |]. cbn. now intros ->. Qed.

Lemma trimStart_snoc s c :
  is_white_space c = false -> trimStart (s ++ [c]) = trimStart s ++ [c].
Proof.
  intros Hc. induction s as [| d rest IH]; cbn.
  - now rewrite Hc.
  - destruct (is_white_space d); [exact IH | reflexivity].
Qed.

Lemma trimEnd_clean s : starts_clean s -> starts_clean (trimEnd s).
Proof.
  destruct s as [| c rest]; [intros _; exact I |].
  cbn [starts_clean]. intros Hc. unfold trimEnd. cbn [rev].
  rewrite (@trimStart_snoc (rev rest) c Hc), rev_app_distr. exact Hc.
Qed.

Lemma trimEnd_idempotent s : trimEnd (trimEnd s) = trimEnd s.
Proof.
  unfold trimEnd. rewrite rev_involutive.
  now rewrite (@trimStart_fixed _ (trimStart_clean (rev s))).
Qed.

Lemma trim_idempotent s : trim (trim s) = trim s.
Proof.
  unfold trim.
  rewrite (@trimStart_fixed _ (@trimEnd_clean _ (trimStart_clean s))).
  apply trimEnd_idempotent.
Qed.

(** ** The three ways a search goes *)

Lemma handleSearch_run window net input :
  SearchRun window net input (handleSearch window net input).
Proof.
  destruct (str_falsy (trim input)) eqn:Hb.
  - unfold handleSearch. rewrite Hb. now constructor.
  - destruct (encodeURIComponent (trim input)) as [err | q] eqn:Hq.
    + unfold handleSearch, search_block, bind, await, try_catch.
      rewrite Hb, Hq. now apply RunMalformed.
    + assert (Hs : submitted input q) by (split; assumption).
      destruct (failed (net q)) eqn:Hf.
      * destruct (handleSearch_failure window net Hs Hf) as [err ->].
        now apply RunFailed.
      * unfold failed in Hf.
        destruct (net q) as [t | response] eqn:Hnet; [discriminate |].
        destruct (Fetch.ok response) eqn:Hok; [| discriminate].
        destruct (Fetch.json_as response) as [t | payload] eqn:Hj;
          [discriminate |].
        rewrite (handleSearch_success window net Hs Hnet Hok Hj).
        now apply RunAnswered with (response := response).
Qed.

Lemma calls_speak window text : calls (speak window text) = [].
Proof.
  unfold speak. destruct window as [w |]; [| reflexivity].
  destruct (negb (speechSynthesis w)); reflexivity.
Qed.

Lemma timers_speak window text : timers (speak window text) = [].
Proof.
  unfold speak. destruct window as [w |]; [| reflexivity].
  destruct (negb (speechSynthesis w)); reflexivity.
Qed.

Lemma calls_app evs evs' : calls (evs ++ evs') = calls evs ++ calls evs'.
Proof. apply flat_map_app. Qed.

Lemma timers_app evs evs' : timers (evs ++ evs') = timers evs ++ timers evs'.
Proof. apply flat_map_app. Qed.

Lemma spoken_app evs evs' : spoken (evs ++ evs') = spoken evs ++ spoken evs'.
Proof. apply flat_map_app. Qed.

Lemma submitted_encoded input q :
  submitted input q ->
  q = Encoded (trim input) /\ well_formed (trim input) = true.
Proof.
  intros [_ Hq]. unfold encodeURIComponent in Hq.
  destruct (well_formed (trim input)); [| discriminate].
  injection Hq as <-. split; reflexivity.
Qed.

Lemma narration_not_empty payload : str_falsy (narration payload) = false.
Proof.
  unfold narration. destruct (Payload.summary payload) as [s |]; [| reflexivity].
  destruct (str_falsy s) eqn:Hs; [reflexivity | exact Hs].
Qed.

(** ** What a search sends, stores and says *)

(** A call of the route carries the trimmed input, which has no lone
    surrogate and which the route does not take for a missing query; a
    search makes no second call. *)
Theorem page_query_accepted window net input q :
  In q (calls (handleSearch window net input)) ->
  q = Encoded (trim input)
  /\ calls (handleSearch window net input) = [q]
  /\ well_formed (trim input) = true
  /\ Route.blank
       (Route.searchParams_get (lit "query") [(lit "query", trim input)])
     = false.
Proof.
  pose proof (handleSearch_run window net input) as Hrun.
  remember (handleSearch window net input) as evs eqn:E. clear E.
  assert (Hgoal : forall q0,
             submitted input q0 -> In q [q0] ->
             q = Encoded (trim input) /\ [q0] = [q]
             /\ well_formed (trim input) = true
             /\ Route.blank
                  (Route.searchParams_get (lit "query")
                     [(lit "query", trim input)]) = false).
  { intros q0 Hs [<- | []].
    destruct (submitted_encoded Hs) as [Hq Hw]. destruct Hs as [Hb _].
    repeat split; try assumption.
    cbn. now rewrite trim_idempotent. }
  destruct Hrun as [Hb | err Hb He | q0 err Hs Hf | q0 response payload Hs Hn Hok Hj].
  - contradiction.
  - destruct err; contradiction.
  - change (calls ([SetState (setStatus searching); SetState (setError None);
                    Fetched q0] ++ caught err)) with [q0].
    apply (Hgoal q0 Hs).
  - match goal with
    | |- context [calls (?pre ++ ?sp ++ ?tm)] =>
        change (calls (pre ++ sp ++ tm)) with (q0 :: calls (sp ++ tm))
    end.
    rewrite calls_app, calls_speak.
    apply (Hgoal q0 Hs).
Qed.

Lemma page_query_accepted_padded :
  Encoded (lit "news") = Encoded (trim (lit " news "))
  /\ calls (handleSearch browser offline (lit " news "))
     = [Encoded (lit "news")]
  /\ well_formed (trim (lit " news ")) = true
  /\ Route.blank
       (Route.searchParams_get (lit "query")
          [(lit "query", trim (lit " news "))])
     = false.
Proof.
  apply (@page_query_accepted browser offline (lit " news ")
           (Encoded (lit "news"))).
  cbn. left. reflexivity.
Defined.

(** A blank input is refused on the spot: the message is set, nothing else
    of the state changes, the status included, and nothing is sent, logged
    or said. *)
Theorem blank_input_only_sets_error window net input s :
  str_falsy (trim input) = true ->
  let evs := handleSearch window net input in
  effects evs = []
  /\ run s evs
     = apply_update s
         (setError (Some (lit "Please provide something to search for.")))
  /\ status (run s evs) = status s
  /\ results (run s evs) = results s.
Proof.
  intros Hb evs. subst evs. unfold handleSearch. rewrite Hb.
  repeat split.
Qed.

Lemma blank_input_only_sets_error_busy :
  let evs := handleSearch browser gateway_two_results (lit "  ") in
  effects evs = []
  /\ run busy evs
     = apply_update busy
         (setError (Some (lit "Please provide something to search for.")))
  /\ status (run busy evs) = status busy
  /\ results (run busy evs) = results busy.
Proof.
  apply (@blank_input_only_sets_error browser gateway_two_results
           (lit "  ") busy).
  reflexivity.
Defined.

(** A search that is answered stores the results of the answer (none when
    the field is not there), clears the error, shows [responding], keeps
    the query and the transcript, and leaves one timer of 600 ms, which
    sets [idle] whatever the status is when it fires. *)
Theorem search_success_stores_results window net input q response payload s :
  submitted input q -> net q = inr response ->
  Fetch.ok response = true -> Fetch.json_as response = inr payload ->
  let evs := handleSearch window net input in
  results (run s evs)
  = match Payload.results payload with Some r => r | None => [] end
  /\ error (run s evs) = None
  /\ status (run s evs) = responding
  /\ query (run s evs) = query s
  /\ transcript (run s evs) = transcript s
  /\ filter (fun ev => match ev with SetTimeout _ _ => true | _ => false end)
       evs
     = [SetTimeout [setStatus idle] 600]
  /\ (forall s', status (fire s' (timers evs)) = idle).
Proof.
  intros Hs Hnet Hok Hj evs. subst evs.
  rewrite (handleSearch_success window net Hs Hnet Hok Hj).
  rewrite !run_app, run_speak, !timers_app, timers_speak.
  rewrite !filter_app.
  replace (filter _ (speak window _)) with (@nil Event).
  - repeat split.
  - unfold speak. destruct window as [w |]; [| reflexivity].
    destruct (negb (speechSynthesis w)); reflexivity.
Qed.

Lemma search_success_stores_results_two :
  let evs := handleSearch browser gateway_two_results (lit "news") in
  results (run showing evs) = [found; found]
  /\ error (run showing evs) = None
  /\ status (run showing evs) = responding
  /\ query (run showing evs) = query showing
  /\ transcript (run showing evs) = transcript showing
  /\ filter (fun ev => match ev with SetTimeout _ _ => true | _ => false end)
       evs
     = [SetTimeout [setStatus idle] 600]
  /\ (forall s', status (fire s' (timers evs)) = idle).
Proof.
  apply (@search_success_stores_results browser gateway_two_results
           (lit "news") (Encoded (lit "news"))
           {| Fetch.status := 200; Fetch.json_any := inr (JObj []);
              Fetch.json_as :=
                inr {| Payload.results := Some [found; found];
                       Payload.summary := Some (lit "Two findings.") |} |}
           {| Payload.results := Some [found; found];
              Payload.summary := Some (lit "Two findings.") |} showing).
  - split; reflexivity.
  - reflexivity.
  - reflexivity.
  - reflexivity.
Defined.

(** Whatever is read aloud in a search is one utterance with a text that is
    not empty, at rate 1 and pitch 1 in [en-US], and the synthesis is
    cancelled right before it. *)
Theorem narration_well_formed window net input u :
  In u (spoken (handleSearch window net input)) ->
  str_falsy (text u) = false
  /\ rate u = 1%Z /\ pitch u = 1%Z /\ lang u = lit "en-US"
  /\ spoken (handleSearch window net input) = [u]
  /\ exists before after,
       handleSearch window net input
       = before ++ SynthesisCancel :: SynthesisSpeak u :: after.
Proof.
  pose proof (handleSearch_run window net input) as Hrun.
  remember (handleSearch window net input) as evs eqn:E. clear E.
  destruct Hrun as [Hb | err Hb He | q0 err Hs Hf | q0 response payload Hs Hn Hok Hj].
  - contradiction.
  - destruct err; contradiction.
  - destruct err; contradiction.
  - unfold speak. destruct window as [w |]; [| contradiction].
    destruct (negb (speechSynthesis w)); [contradiction |].
    cbn. intros [<- | []]. cbn.
    split; [apply narration_not_empty |].
    repeat split.
    eexists. eexists [SetTimeout [setStatus idle] 600].
    change (?a :: ?b :: ?c :: ?d :: ?e :: ?rest)
      with ([a; b; c; d; e] ++ rest).
    reflexivity.
Qed.

Lemma narration_well_formed_two :
  let u := {| text := lit "Two findings."; rate := 1; pitch := 1;
              lang := lit "en-US" |} in
  str_falsy (text u) = false
  /\ rate u = 1%Z /\ pitch u = 1%Z /\ lang u = lit "en-US"
  /\ spoken (handleSearch browser gateway_two_results (lit "news")) = [u]
  /\ exists before after,
       handleSearch browser gateway_two_results (lit "news")
       = before ++ SynthesisCancel :: SynthesisSpeak u :: after.
Proof.
  apply (@narration_well_formed browser gateway_two_results (lit "news")
           {| text := lit "Two findings."; rate := 1; pitch := 1;
              lang := lit "en-US" |}).
  cbn. left. reflexivity.
Defined.

Lemma search_failure_message_quota :
  let response :=
    {| Fetch.status := 403; Fetch.json_any := inr quota_exceeded;
       Fetch.json_as :=
         @inl thrown Payload.t (ErrorObject (lit "not a search answer")) |} in
  let shown :=
    error (run showing (handleSearch browser gateway_quota (lit "news"))) in
  (forall members message,
      Fetch.json_any response = inr (JObj members) ->
      get_member (lit "error") members = Some (JStr message) ->
      str_falsy message = false -> shown = Some message)
  /\ (forall members,
        Fetch.json_any response = inr (JObj members) ->
        get_member (lit "error") members = None ->
        shown = Some (lit "Search failed. Please try again."))
  /\ (forall t,
        Fetch.json_any response = inl t ->
        shown = Some (lit "Search failed. Please try again.")).
Proof.
  apply (@search_failure_message browser gateway_quota (lit "news")
           (Encoded (lit "news")) showing
           {| Fetch.status := 403; Fetch.json_any := inr quota_exceeded;
              Fetch.json_as := inl (ErrorObject (lit "not a search answer")) |}).
  - split; reflexivity.
  - reflexivity.
  - reflexivity.
Defined.

(** The stored results change only when a search is answered with a success
    whose body parses: a blank input, an input that cannot be encoded and
    every failure leave them as they were. *)
Theorem results_change_only_on_success window net input s :
  results (run s (handleSearch window net input)) <> results s ->
  exists q response payload,
    submitted input q /\ net q = inr response
    /\ Fetch.ok response = true /\ Fetch.json_as response = inr payload.
Proof.
  pose proof (handleSearch_run window net input) as Hrun.
  remember (handleSearch window net input) as evs eqn:E. clear E.
  destruct Hrun as [Hb | err Hb He | q0 err Hs Hf | q0 response payload Hs Hn Hok Hj].
  - intros H. now contradiction H.
  - intros H. now contradiction H.
  - intros H. now contradiction H.
  - intros _. now exists q0, response, payload.
Qed.

Lemma results_change_only_on_success_two :
  exists q response payload,
    submitted (lit "news") q /\ gateway_two_results q = inr response
    /\ Fetch.ok response = true /\ Fetch.json_as response = inr payload.
Proof.
  apply (@results_change_only_on_success browser gateway_two_results
           (lit "news") showing).
  vm_compute. discriminate.
Defined.

(** An input with a lone surrogate cannot be encoded: the search ends in
    [idle] with a message set, without a call and with the results kept. *)
Theorem malformed_input_fails_without_call window net input s :
  str_falsy (trim input) = false -> well_formed (trim input) = false ->
  let evs := handleSearch window net input in
  calls evs = []
  /\ (exists message, error (run s evs) = Some message)
  /\ status (run s evs) = idle
  /\ results (run s evs) = results s.
Proof.
  intros Hb Hw evs. subst evs.
  unfold handleSearch, search_block, bind, await, try_catch, encodeURIComponent.
  rewrite Hb, Hw. cbn. repeat split. eexists. reflexivity.
Qed.

Lemma malformed_input_fails_without_call_surrogate :
  let evs := handleSearch browser gateway_two_results [0xD83D%N] in
  calls evs = []
  /\ (exists message, error (run showing evs) = Some message)
  /\ status (run showing evs) = idle
  /\ results (run showing evs) = results showing.
Proof.
  apply (@malformed_input_fails_without_call browser gateway_two_results
           [0xD83D%N] showing).
  - reflexivity.
  - reflexivity.
Defined.

(** ** Submitting *)



Example submit_waits_on_silent_network :
  let evs := Awaiting.onSubmit_awaiting hearing true browser silent in
  status (fire (run hearing evs) (timers evs)) = searching
  /\ effects evs
     = [PreventDefault; RecognitionStop; Fetched (Encoded (lit "weath"))].
Proof. split; reflexivity. Qed.

(** With an instance at hand a submission stops the capture before the
    search, and before any call of the route. *)
Theorem submit_stops_capture_first s window net :
  exists rest,
    onSubmit s true window net
    = [PreventDefault; RecognitionStop; SetState (setStatus idle)] ++ rest
    /\ rest = handleSearch window net (query s)
    /\ effects (onSubmit s true window net)
       = PreventDefault :: RecognitionStop :: effects rest.
Proof.
  exists (handleSearch window net (query s)). repeat split.
Qed.

(** ** The recognition *)

(** The end of the recognition takes the page out of [listening] and out of
    nothing else: in any other status the state stays as it is. *)
Theorem onend_only_leaves_listening s :
  run s onend
  = if status_eqb (status s) listening then apply_update s (setStatus idle)
    else s.
Proof.
  destruct s as [q t r st e sp]. destruct st; reflexivity.
Qed.

(** An error of the recognition, unlike its end, also takes the page out of
    a search in flight and out of [responding]. *)
Theorem onerror_interrupts_any_status s :
  run s onerror = apply_update s (setStatus idle)
  /\ submitDisabled (render_form (run s onerror)) = false
  /\ submitDisabled (render_form (run busy onend)) = true.
Proof. repeat split. Qed.

(** Starting the capture does nothing without an instance; with one whose
    [start] returns, the error and the transcript are cleared and the page
    is [listening], the query and the results being kept. *)
Theorem start_listening_opens_capture s start :
  startListening false start = []
  /\ effects (startListening true (inr tt)) = [RecognitionStart]
  /\ run s (startListening true (inr tt))
     = {| query := query s; transcript := []; results := results s;
          status := listening; error := None;
          speechSupported := speechSupported s |}.
Proof. repeat split. Qed.

(** Stopping always ends in [idle] and touches nothing else of the state;
    the recognition is told to stop exactly when there is an instance. *)
Theorem stop_listening_ends_idle s recognition :
  run s (stopListening recognition) = apply_update s (setStatus idle)
  /\ effects (stopListening recognition)
     = if recognition then [RecognitionStop] else [].
Proof. destruct recognition; repeat split. Qed.

(** A recognition event sets the query and the transcript to one and the
    same text, which is trimmed, and leaves the results, the status and the
    error alone. *)
Theorem onresult_sets_query_and_transcript s event_results :
  let after := run s (onresult event_results) in
  query after = transcript after
  /\ trim (query after) = query after
  /\ results after = results s
  /\ status after = status s
  /\ error after = error s.
Proof.
  cbn. repeat split. apply trim_idempotent.
Qed.

(** The voice button toggles.  While it is enabled and the page does not
    listen, a click starts the capture and shows [listening]; the button is
    still enabled then, and the next click stops the capture and shows
    [idle].  While it is disabled (no support for speech, or a search in
    flight) a click runs nothing. *)
Theorem voice_button_toggles s :
  voiceDisabled (render_form s) = false ->
  status_eqb (status s) listening = false ->
  let first := click_voice s true (inr tt) in
  let second := click_voice (run s first) true (inr tt) in
  status (run s first) = listening
  /\ voiceDisabled (render_form (run s first)) = false
  /\ status (run (run s first) second) = idle
  /\ effects (first ++ second) = [RecognitionStart; RecognitionStop]
  /\ voiceLabel (render_form (run s first)) = lit "Stop Listening"
  /\ voiceLabel (render_form (run (run s first) second))
     = lit "Talk to Agent"
  /\ (forall s' recognition start,
        voiceDisabled (render_form s') = true ->
        click_voice s' recognition start = []).
Proof.
  intros He Hs.
  assert (Hoff : forall s' recognition start,
             voiceDisabled (render_form s') = true ->
             click_voice s' recognition start = []).
  { intros s' recognition start Hd. unfold click_voice. now rewrite Hd. }
  destruct s as [q t r st e sp].
  destruct st, sp; cbn in He, Hs; try discriminate; repeat split; exact Hoff.
Qed.

Lemma voice_button_toggles_showing :
  let first := click_voice showing true (inr tt) in
  let second := click_voice (run showing first) true (inr tt) in
  status (run showing first) = listening
  /\ voiceDisabled (render_form (run showing first)) = false
  /\ status (run (run showing first) second) = idle
  /\ effects (first ++ second) = [RecognitionStart; RecognitionStop]
  /\ voiceLabel (render_form (run showing first)) = lit "Stop Listening"
  /\ voiceLabel (render_form (run (run showing first) second))
     = lit "Talk to Agent"
  /\ (forall s' recognition start,
        voiceDisabled (render_form s') = true ->
        click_voice s' recognition start = []).
Proof.
  apply (@voice_button_toggles showing); reflexivity.
Defined.

(** A click during a search in flight starts nothing. *)
Example voice_button_locked_while_searching :
  voiceDisabled (render_form busy) = true
  /\ click_voice busy true (inr tt) = [].
Proof. split; reflexivity. Qed.

(** ** Mounting and rendering *)

(** After the effect run on mount, [speechSupported] tells whether the
    instance is there; it is there exactly when the browser has one of the
    two constructors and the construction did not throw. *)
Theorem mount_support_matches_instance s window construct :
  speechSupported (run s (fst (mount window construct)))
  = snd (mount window construct)
  /\ snd (mount window construct)
     = match getSpeechRecognition window, construct with
       | Some _, inr _ => true
       | _, _ => false
       end
  /\ unsupportedNote (render_form (run s (fst (mount window construct))))
     = negb (snd (mount window construct)).
Proof.
  unfold mount.
  destruct (getSpeechRecognition window) as [ctor |]; [| repeat split].
  destruct construct as [err | []]; repeat split.
Qed.

(** The findings are the invitation exactly when no result is stored;
    otherwise they are one card per result, in order, keyed and linked by
    the result's link, and the count shown is the number of cards. *)
Theorem findings_match_results s :
  match findings (render s) with
  | Placeholder _ => results s = [] /\ resultsCount (render s) = None
  | ResultsList cards =>
      cards <> []
      /\ resultsCount (render s) = Some (List.length cards)
      /\ map key cards = map link (results s)
      /\ map href cards = map link (results s)
      /\ map heading cards = map title (results s)
      /\ map excerpt cards = map snippet (results s)
  end.
Proof.
  unfold render. cbn [findings resultsCount].
  destruct (results s) as [| r rest]; [split; reflexivity |].
  cbn [List.length Nat.ltb Nat.leb].
  split; [discriminate |].
  split; [now rewrite length_map |].
  rewrite !map_map. repeat split.
Qed.

(** While a search is in flight the input and both buttons are disabled,
    and the captured voice is never shown while the page listens. *)
Theorem form_locked_while_searching s :
  (inputDisabled (render_form s) = true
   <-> status s = searching)
  /\ submitDisabled (render_form s) = inputDisabled (render_form s)
  /\ (inputDisabled (render_form s) = true ->
      voiceDisabled (render_form s) = true)
  /\ (status s = listening -> capturedVoice (render_form s) = None).
Proof.
  unfold render_form. cbn.
  destruct (status s), (speechSupported s), (str_falsy (transcript s));
    cbn; repeat split; intros; try reflexivity; try discriminate.
Qed.

End PageCoverage.
